(** * Bowldem (Discord activity): daily puzzle, scoring, statistics and leaderboard

    A shallow embedding of
    - [src/src/utils/dailyPuzzle.js]   (dates, puzzle selection, game state, stats),
    - [src/src/hooks/useLeaderboard.js] (leaderboard hook and the daily puzzle hook),
    - [src/src/components/ArchiveModal.jsx] ([generateLocalArchive], archive completions),
    - [src/unnamed/part_004] (the App component: [findPlayer], [generateNewFeedback],
      [handleArchiveGuess], [handlePlayerGuess]).

    JavaScript [Date] values are time values in milliseconds (Z). Local-time
    operations ([getDate]/[setDate]) go through an explicit time zone, given
    by its offset functions as in ECMAScript's [LocalTime] and [UTC]. *)

From Stdlib Require Import ZArith Lia Ascii String Floats Uint63 Sorting.Sorted Sorting.Permutation.
From stdpp Require Import base gmap strings list.

Open Scope Z_scope.

(* ------------------------------------------------------------------ *)
(** ** JavaScript values used by the code *)

(** A JS number that is an integer or [NaN] (the results of [%], [Math.floor]
    and [Math.max] on the integers the code handles). *)
Inductive jsnum : Type :=
| JNum (z : Z)
| JNaN.

(** [a % b] on non-negative integers: [NaN] when [b = 0]. *)
Definition js_mod (a : jsnum) (b : Z) : jsnum :=
  match a with
  | JNum x => if Z.eqb b 0 then JNaN else JNum (Z.rem x b)
  | JNaN => JNaN
  end.

(** [Math.max(0, x)]: [NaN] is propagated. *)
Definition js_max0 (a : jsnum) : jsnum :=
  match a with
  | JNum x => JNum (Z.max 0 x)
  | JNaN => JNaN
  end.

(** [arr[i]] for a JS array: [undefined] (None) out of range or for [NaN]. *)
Definition js_index {A} (arr : list A) (i : jsnum) : option A :=
  match i with
  | JNum z => if Z.leb 0 z then arr !! Z.to_nat z else None
  | JNaN => None
  end.

(** Outcome of a JS call: a normal return or a thrown exception. *)
Inductive completion (A : Type) : Type :=
| Normal (a : A)
| Throw (msg : string).
Arguments Normal {A} a.
Arguments Throw {A} msg.

(* ------------------------------------------------------------------ *)
(** ** Calendar: days since 1970-01-01 and ISO date strings *)

Definition msPerHour : Z := 3600000.
Definition msPerDay : Z := 86400000.

(** Day number of a proleptic Gregorian civil date (ECMAScript [MakeDay]). *)
Definition days_from_civil (y m d : Z) : Z :=
  let y' := if Z.leb m 2 then y - 1 else y in
  let era := y' / 400 in
  let yoe := y' - era * 400 in
  let mp := if Z.ltb 2 m then m - 3 else m + 9 in
  let doy := (153 * mp + 2) / 5 + d - 1 in
  let doe := yoe * 365 + yoe / 4 - yoe / 100 + doy in
  era * 146097 + doe - 719468.

(** Civil date (year, month, day) of a day number. *)
Definition civil_from_days (z : Z) : Z * Z * Z :=
  let z' := z + 719468 in
  let era := z' / 146097 in
  let doe := z' - era * 146097 in
  let yoe := (doe - doe / 1460 + doe / 36524 - doe / 146096) / 365 in
  let doy := doe - (365 * yoe + yoe / 4 - yoe / 100) in
  let mp := (5 * doy + 2) / 153 in
  let d := doy - (153 * mp + 2) / 5 + 1 in
  let m := if Z.ltb mp 10 then mp + 3 else mp - 9 in
  let y := yoe + era * 400 + (if Z.leb m 2 then 1 else 0) in
  (y, m, d).

Definition digit (n : Z) : ascii := ascii_of_nat (48 + Z.to_nat n).

Definition pad2 (n : Z) : string :=
  String (digit (n / 10)) (String (digit (n mod 10)) EmptyString).

Definition pad4 (n : Z) : string :=
  String (digit (n / 1000)) (String (digit ((n / 100) mod 10))
    (String (digit ((n / 10) mod 10)) (String (digit (n mod 10)) EmptyString))).

(** [iso_of_day d]: the [YYYY-MM-DD] string of day [d] (years 0..9999). *)
Definition iso_of_day (d : Z) : string :=
  let '(y, m, dd) := civil_from_days d in
  String.append (pad4 y) (String "-" (String.append (pad2 m) (String "-" (pad2 dd)))).

(** [date.toISOString().split('T')[0]] for a time value [t]. *)
Definition iso_date_of_ms (t : Z) : string := iso_of_day (t / msPerDay).

Definition digit_val (c : ascii) : option Z :=
  let n := Z.of_nat (nat_of_ascii c) - 48 in
  if Z.leb 0 n && Z.leb n 9 then Some n else None.

Definition digits2 (a b : ascii) : option Z :=
  match digit_val a, digit_val b with
  | Some x, Some y => Some (10 * x + y)
  | _, _ => None
  end.

(** Time value (in days) of [new Date("YYYY-MM-DD")] or
    [new Date("YYYY-MM-DD" + "T00:00:00Z")]: both are UTC midnight.
    [None] is an Invalid Date. Day-of-month overflow (e.g. Feb 30) rolls
    over as [MakeDay] does. *)
Definition parse_iso_date (s : string) : option Z :=
  match s with
  | String y1 (String y2 (String y3 (String y4 (String "-"
      (String m1 (String m2 (String "-" (String d1 (String d2 EmptyString))))))))) =>
      match digits2 y1 y2, digits2 y3 y4, digits2 m1 m2, digits2 d1 d2 with
      | Some yh, Some yl, Some m, Some d =>
          if Z.leb 1 m && Z.leb m 12 && Z.leb 1 d && Z.leb d 31
          then Some (days_from_civil (100 * yh + yl) m d) else None
      | _, _, _, _ => None
      end
  | _ => None
  end.

(* ------------------------------------------------------------------ *)
(** ** Local time *)

(** A time zone, as ECMAScript's [LocalTZA]: [off_utc t] is the offset (ms)
    at the UTC instant [t]; [off_local tl] the offset used to read the local
    time value [tl] back to UTC (for a skipped or repeated local time, the
    offset before the transition). *)
Record timezone := {
  off_utc : Z -> Z;
  off_local : Z -> Z
}.

Definition LocalTime (tz : timezone) (t : Z) : Z := t + off_utc tz t.
Definition UTC (tz : timezone) (tl : Z) : Z := tl - off_local tz tl.

(** [d.setDate(d.getDate() + k)]: [MakeDay(Y, M, D + k)] is the local day
    number plus [k], the local time of day is kept, and the local time value
    is read back to UTC. *)
Definition setDate_add (tz : timezone) (t : Z) (k : Z) : Z :=
  UTC tz (LocalTime tz t + k * msPerDay).

Definition utc_zone : timezone := {| off_utc := fun _ => 0; off_local := fun _ => 0 |}.

(** America/New_York with its 2026 rules: EDT (UTC-4) from 2026-03-08
    07:00Z to 2026-11-01 06:00Z, EST (UTC-5) otherwise. *)
Definition ny_dst_start : Z := days_from_civil 2026 3 8.
Definition ny_dst_end : Z := days_from_civil 2026 11 1.

Definition us_eastern_2026 : timezone := {|
  off_utc := fun t =>
    if Z.leb (ny_dst_start * msPerDay + 7 * msPerHour) t
       && Z.ltb t (ny_dst_end * msPerDay + 6 * msPerHour)
    then -4 * msPerHour else -5 * msPerHour;
  off_local := fun tl =>
    if Z.leb (ny_dst_start * msPerDay + 3 * msPerHour) tl
       && Z.ltb tl (ny_dst_end * msPerDay + 2 * msPerHour)
    then -4 * msPerHour else -5 * msPerHour
|}.

(* ------------------------------------------------------------------ *)
(** ** Puzzle catalog and players (data files [match_puzzles_t20wc.json],
    [all_players.json]) *)

Record MatchData := {
  playersInMatch : option (list string);   (** [matchData.playersInMatch] may be absent *)
  targetPlayerTeam : string;
  targetPlayerRole : string
}.

Record Puzzle := {
  puzzle_id : string;
  targetPlayer : string;
  matchData : MatchData
}.

Record Player := {
  player_id : string;
  fullName : string;
  country : string;
  role : string
}.

(* ------------------------------------------------------------------ *)
(** ** dailyPuzzle.js: constants and dates *)

Definition EPOCH_DATE : string := "2026-01-15".
Definition MAX_GUESSES : nat := 5.

(** [getEffectiveDate()] at the instant [now] with the debug offset
    [debugOffset] (0 outside debug mode): [today.setDate(today.getDate() +
    debugOffset)] then the UTC date of the result. *)
Definition getEffectiveDate (tz : timezone) (now debugOffset : Z) : string :=
  iso_date_of_ms (setDate_add tz now debugOffset).

(** [getPuzzleNumber(dateStr)]. *)
Definition getPuzzleNumber (dateStr : string) : jsnum :=
  match parse_iso_date dateStr, parse_iso_date EPOCH_DATE with
  | Some d, Some e =>
      let diffTime := d * msPerDay - e * msPerDay in
      js_max0 (JNum (diffTime / msPerDay))
  | _, _ => JNaN
  end.

(** [getPuzzleIndex(puzzleNumber, totalPuzzles)] is [puzzleNumber % totalPuzzles]. *)
Definition getPuzzleIndex (puzzleNumber : jsnum) (totalPuzzles : Z) : jsnum :=
  js_mod puzzleNumber totalPuzzles.

Record PuzzleForToday := {
  pt_puzzle : option Puzzle;      (** [puzzles[puzzleIndex]], [undefined] is None *)
  pt_puzzleNumber : jsnum;
  pt_puzzleIndex : jsnum
}.

(** [getPuzzleForToday(puzzles)], where [getPuzzleNumber()] reads the
    effective date [effectiveDate]. No statement of it throws. *)
Definition getPuzzleForToday (puzzles : list Puzzle) (effectiveDate : string)
    : completion PuzzleForToday :=
  let puzzleNumber := getPuzzleNumber effectiveDate in
  let puzzleIndex := getPuzzleIndex puzzleNumber (Z.of_nat (length puzzles)) in
  Normal {| pt_puzzle := js_index puzzles puzzleIndex;
            pt_puzzleNumber := puzzleNumber;
            pt_puzzleIndex := puzzleIndex |}.

(* ------------------------------------------------------------------ *)
(** ** dailyPuzzle.js: game state and statistics in localStorage *)

Inductive GameStatus := NotStarted | InProgress | Won | Lost.

Definition status_eqb (a b : GameStatus) : bool :=
  match a, b with
  | NotStarted, NotStarted | InProgress, InProgress | Won, Won | Lost, Lost => true
  | _, _ => false
  end.

Record GameState := {
  lastPlayedDate : option string;
  lastPuzzleNumber : option jsnum;
  guesses : list string;
  gameStatus : GameStatus;
  modalShown : bool
}.

Definition getDefaultGameState : GameState := {|
  lastPlayedDate := None; lastPuzzleNumber := None; guesses := [];
  gameStatus := NotStarted; modalShown := false |}.

(** [{ ...state, guesses: g, gameStatus: s }] *)
Definition with_guesses_status (s : GameState) (g : list string) (st : GameStatus) : GameState :=
  {| lastPlayedDate := lastPlayedDate s; lastPuzzleNumber := lastPuzzleNumber s;
     guesses := g; gameStatus := st; modalShown := modalShown s |}.

Record Stats := {
  gamesPlayed : Z;
  gamesWon : Z;
  currentStreak : Z;
  maxStreak : Z;
  guessDistribution : gmap Z Z;   (** the JS array, as the object it is: index -> count *)
  lastWinDate : option string     (** [null] is None *)
}.

Definition getDefaultStats : Stats := {|
  gamesPlayed := 0; gamesWon := 0; currentStreak := 0; maxStreak := 0;
  guessDistribution := <[0:=0]> (<[1:=0]> (<[2:=0]> (<[3:=0]> (<[4:=0]> ∅))));
  lastWinDate := None |}.

(** The two localStorage keys [bowldem_state] and [bowldem_stats]
    (absent is None). *)
Record Store := {
  stored_state : option GameState;
  stored_stats : option Stats
}.

Definition loadGameState (st : Store) : GameState :=
  match stored_state st with Some s => s | None => getDefaultGameState end.

Definition saveGameState (s : GameState) (st : Store) : Store :=
  {| stored_state := Some s; stored_stats := stored_stats st |}.

Definition loadStats (st : Store) : Stats :=
  match stored_stats st with Some s => s | None => getDefaultStats end.

Definition saveStats (s : Stats) (st : Store) : Store :=
  {| stored_state := stored_state st; stored_stats := Some s |}.

(** The string [yesterdayStr] of [updateStatsOnComplete]:
    [new Date(today)], [setDate(getDate() - 1)], then the UTC date.
    [toISOString] throws on an Invalid Date. *)
Definition yesterdayStr (tz : timezone) (today : string) : completion string :=
  match parse_iso_date today with
  | Some d => Normal (iso_date_of_ms (setDate_add tz (d * msPerDay) (-1)))
  | None => Throw "RangeError: Invalid time value"
  end.

Definition opt_string_eqb (a : option string) (b : string) : bool :=
  match a with Some s => String.eqb s b | None => false end.

(** The update of [updateStatsOnComplete(won, guessCount)] on the loaded
    [stats], with [today = getEffectiveDate()]. *)
Definition update_stats (tz : timezone) (today : string) (won : bool) (guessCount : Z)
    (stats : Stats) : completion Stats :=
  let played := gamesPlayed stats + 1 in
  if won then
    let i := guessCount - 1 in
    let dist := <[i := default 0 (guessDistribution stats !! i) + 1]> (guessDistribution stats) in
    match yesterdayStr tz today with
    | Throw e => Throw e
    | Normal yStr =>
        let streak :=
          if opt_string_eqb (lastWinDate stats) yStr then currentStreak stats + 1
          else if negb (opt_string_eqb (lastWinDate stats) today) then 1
          else currentStreak stats in
        Normal {| gamesPlayed := played; gamesWon := gamesWon stats + 1;
                  currentStreak := streak; maxStreak := Z.max (maxStreak stats) streak;
                  guessDistribution := dist; lastWinDate := Some today |}
    end
  else
    Normal {| gamesPlayed := played; gamesWon := gamesWon stats; currentStreak := 0;
              maxStreak := maxStreak stats; guessDistribution := guessDistribution stats;
              lastWinDate := lastWinDate stats |}.

(** [updateStatsOnComplete(won, guessCount)]: load, update, save. *)
Definition updateStatsOnComplete (tz : timezone) (today : string) (won : bool)
    (guessCount : Z) (st : Store) : completion (Stats * Store) :=
  match update_stats tz today won guessCount (loadStats st) with
  | Normal s => Normal (s, saveStats s st)
  | Throw e => Throw e
  end.

(** [completeGame(won)]: the returned value is the game state. *)
Definition completeGame (tz : timezone) (today : string) (won : bool) (st : Store)
    : completion (GameState * Store) :=
  let state := loadGameState st in
  let state' := with_guesses_status state (guesses state) (if won then Won else Lost) in
  let st1 := saveGameState state' st in
  match updateStatsOnComplete tz today won (Z.of_nat (length (guesses state'))) st1 with
  | Normal (_, st2) => Normal (state', st2)
  | Throw e => Throw e
  end.

(** [recordGuess(playerKey)] of dailyPuzzle.js. *)
Definition recordGuess (playerKey : string) (st : Store) : GameState * Store :=
  let state := loadGameState st in
  if negb (status_eqb (gameStatus state) InProgress) then (state, st)
  else
    let state' := with_guesses_status state (guesses state ++ [playerKey]) (gameStatus state) in
    (state', saveGameState state' st).

(* ------------------------------------------------------------------ *)
(** ** useDailyPuzzle: [recordGuess(playerKey, isCorrect)] *)

(** The hook's [stats] React state. [recordGuess] calls
    [setStats(completeGame(won))], and [completeGame] returns the game
    state, so that value can be a game state. *)
Inductive ReactStats :=
| RStats (s : Stats)
| RGameState (g : GameState).

Record DailyPuzzleHook := {
  rs_gameState : GameState;
  rs_stats : ReactStats
}.

Record RecordOutcome := {
  ro_newState : GameState;
  ro_isGameOver : bool;
  ro_won : bool
}.

Definition alreadyCompleted (gs : GameState) : bool :=
  status_eqb (gameStatus gs) Won || status_eqb (gameStatus gs) Lost.

(** The [recordGuess] callback of [useDailyPuzzle]: the React state [rs],
    the localStorage [st], and the effective date [today] read by
    [completeGame]. *)
Definition hook_recordGuess (tz : timezone) (today : string) (rs : DailyPuzzleHook)
    (st : Store) (playerKey : string) (isCorrect : bool)
    : completion (RecordOutcome * DailyPuzzleHook * Store) :=
  let gameState := rs_gameState rs in
  if alreadyCompleted gameState then
    Normal ({| ro_newState := gameState; ro_isGameOver := true;
               ro_won := status_eqb (gameStatus gameState) Won |}, rs, st)
  else
    let newGuesses := guesses gameState ++ [playerKey] in
    let isLastGuess := Nat.leb MAX_GUESSES (length newGuesses) in
    let won := isCorrect in
    let lost := negb isCorrect && isLastGuess in
    let isGameOver := won || lost in
    let newStatus := if won then Won else if lost then Lost else InProgress in
    let newState := with_guesses_status gameState newGuesses newStatus in
    let st1 := saveGameState newState st in
    let rs1 := {| rs_gameState := newState; rs_stats := rs_stats rs |} in
    let out := {| ro_newState := newState; ro_isGameOver := isGameOver; ro_won := won |} in
    if isGameOver then
      match completeGame tz today won st1 with
      | Normal (newStats, st2) =>
          Normal (out, {| rs_gameState := newState; rs_stats := RGameState newStats |}, st2)
      | Throw e => Throw e
      end
    else Normal (out, rs1, st1).

(* ------------------------------------------------------------------ *)
(** ** App (part_004): player lookup and feedback *)

(** [playersLookup]: [map[player.id] = player] for each player in order,
    so a later player with the same id replaces an earlier one. *)
Definition playersLookup (players : list Player) : gmap string Player :=
  foldl (fun m p => <[player_id p := p]> m) ∅ players.

Definition findPlayer (players : list Player) (playerId : string) : option Player :=
  playersLookup players !! playerId.

Record Feedback := {
  playerName : string;
  fb_country : string;
  fb_role : string;
  playedInGame : bool;
  sameTeam : bool;
  sameRole : bool;
  isMVP : bool
}.

(** [generateNewFeedback(guessedPlayerKey, puzzleToUse)], [puzzle] being
    [puzzleToUse || currentPuzzle]. *)
Definition generateNewFeedback (players : list Player) (guessedPlayerKey : string)
    (puzzle : option Puzzle) : option Feedback :=
  match findPlayer players guessedPlayerKey, puzzle with
  | Some guessedPlayer, Some pz =>
      let md := matchData pz in
      let inMatch := match playersInMatch md with Some l => l | None => [] end in
      Some {| playerName := fullName guessedPlayer;
              fb_country := country guessedPlayer;
              fb_role := role guessedPlayer;
              playedInGame := existsb (String.eqb guessedPlayerKey) inMatch;
              sameTeam := String.eqb (country guessedPlayer) (targetPlayerTeam md);
              sameRole := String.eqb (role guessedPlayer) (targetPlayerRole md);
              isMVP := String.eqb guessedPlayerKey (targetPlayer pz) |}
  | _, _ => None
  end.

(* ------------------------------------------------------------------ *)
(** ** useLeaderboard *)

(** A row of [puzzleLeaderboard] as the store returns it; [created_at] is
    the time value of [new Date(row.created_at)]. *)
Record LbRow := {
  row_user : string;
  guesses_used : Z;
  row_won : bool;
  created_at : Z
}.

(** The comparator of [getTopEntries] (and of [LeaderboardModal]). *)
Definition top_cmp (a b : LbRow) : Z :=
  if negb (Z.eqb (guesses_used a) (guesses_used b)) then guesses_used a - guesses_used b
  else created_at a - created_at b.

(** [Array.prototype.sort] is stable (ES2019), so with a consistent
    comparator its result is the stable insertion sort. *)
Fixpoint insert_row (x : LbRow) (l : list LbRow) : list LbRow :=
  match l with
  | [] => [x]
  | y :: ys => if Z.leb (top_cmp x y) 0 then x :: y :: ys else y :: insert_row x ys
  end.

Fixpoint sort_rows (l : list LbRow) : list LbRow :=
  match l with
  | [] => []
  | x :: xs => insert_row x (sort_rows xs)
  end.

(** [getTopEntries(n)]: filter winners, sort, [slice(0, n)]. *)
Definition getTopEntries (puzzleLeaderboard : list LbRow) (n : nat) : list LbRow :=
  take n (sort_rows (List.filter (fun e => row_won e) puzzleLeaderboard)).

(** The loop of [calculatePercentile]. *)
Fixpoint count_better (entries : list LbRow) (guessesUsed : Z) (won : bool) (acc : Z) : Z :=
  match entries with
  | [] => acc
  | entry :: rest =>
      let acc' :=
        if row_won entry && negb won then acc + 1
        else if row_won entry && won && Z.ltb (guesses_used entry) guessesUsed then acc + 1
        else acc in
      count_better rest guessesUsed won acc'
  end.

(** JS numbers as IEEE binary64 doubles. *)
Definition float_of_Z (z : Z) : float := PrimFloat.of_uint63 (Uint63.of_Z z).

(** [Math.round(x)] for a double [x] in [0, 100]: the least integer [n]
    with [x < n + 0.5] (ties go up). *)
Fixpoint round_upto (x : float) (n : Z) (fuel : nat) : Z :=
  match fuel with
  | O => n
  | S f => if PrimFloat.ltb x (PrimFloat.add (float_of_Z n) 0.5%float) then n
           else round_upto x (n + 1) f
  end.

Definition math_round_0_100 (x : float) : Z := round_upto x 0 101.

(** [calculatePercentile(guessesUsed, won)]; [null] is None. *)
Definition calculatePercentile (puzzleLeaderboard : list LbRow) (guessesUsed : Z) (won : bool)
    : option Z :=
  let len := Z.of_nat (length puzzleLeaderboard) in
  if Z.eqb len 0 then None
  else
    let betterCount := count_better puzzleLeaderboard guessesUsed won 0 in
    Some (math_round_0_100
            (PrimFloat.mul (PrimFloat.div (float_of_Z (len - betterCount)) (float_of_Z len))
                           100%float)).

(** Submission: the entry built by [submitToLeaderboard]. *)
Record LbEntry := {
  discord_user_id : string;
  discord_username : option string;
  discord_avatar : option string;
  guild_id : option string;
  puzzle_date : string;
  puzzle_number : jsnum;
  entry_guesses_used : Z;
  entry_won : bool
}.

(** The hook's arguments. [None] is [null]/[undefined]. *)
Record LeaderboardArgs := {
  la_puzzleNumber : jsnum;
  la_puzzleDate : option string;
  la_discordUserId : option string;
  la_discordUsername : option string;
  la_guildId : option string
}.

Record SubmitFlags := {
  isSubmitting : bool;
  hasSubmitted : bool
}.

(** JS truthiness of a string that may be [null]. *)
Definition truthy (s : option string) : bool :=
  match s with Some x => negb (String.eqb x "") | None => false end.

(** The result object of a submission: [{success: true, data}],
    [{success: false, duplicate: true, ...}], [{success: false, error}]
    and the hook's own [{success: false, error: 'Invalid submission state'}]. *)
Inductive SubmitResult :=
| SubmitSuccess
| SubmitDuplicate
| SubmitError (msg : string)
| SubmitInvalidState.

(** A row of the [leaderboard_entries] table, as inserted by
    [submitLeaderboardEntry]. *)
Record LbInsertRow := {
  ins_puzzle_date : string;
  ins_puzzle_number : jsnum;
  ins_discord_user_id : string;
  ins_discord_username : option string;
  ins_discord_avatar : option string;
  ins_guild_id : option string;
  ins_display_name : option string;
  ins_guesses_used : Z;
  ins_won : bool;
  ins_is_seed : bool
}.

(** The answers of the remote database that the code does not compute: the
    duplicate-check query may fail (its [data] is then [null]), and the
    insert may return an [error] (nothing is stored then). *)
Record SupabaseAnswers := {
  select_failed : bool;
  insert_error : option string
}.

(** [.select('id').eq('puzzle_date', d).eq('discord_user_id', u).single()]:
    [data] is the row when exactly one row matches, [null] otherwise. *)
Definition select_single (rows : list LbInsertRow) (pdate uid : string) : option LbInsertRow :=
  match List.filter (fun r => String.eqb (ins_puzzle_date r) pdate
                              && String.eqb (ins_discord_user_id r) uid) rows with
  | [r] => Some r
  | _ => None
  end.

(** [submitLeaderboardEntry(entry)] (src/src/lib/discord.jsx). [supabase]
    says whether the client was created; [rows] is the table. *)
Definition submitLeaderboardEntry (supabase : bool) (ans : SupabaseAnswers) (entry : LbEntry)
    (rows : list LbInsertRow) : SubmitResult * list LbInsertRow :=
  if negb supabase then (SubmitError "Supabase not configured", rows)
  else
    let existing := if select_failed ans then None
                    else select_single rows (puzzle_date entry) (discord_user_id entry) in
    match existing with
    | Some _ => (SubmitDuplicate, rows)
    | None =>
        match insert_error ans with
        | Some msg => (SubmitError msg, rows)
        | None =>
            (SubmitSuccess,
             rows ++ [{| ins_puzzle_date := puzzle_date entry;
                         ins_puzzle_number := puzzle_number entry;
                         ins_discord_user_id := discord_user_id entry;
                         ins_discord_username := discord_username entry;
                         ins_discord_avatar := discord_avatar entry;
                         ins_guild_id := guild_id entry;
                         ins_display_name := discord_username entry;
                         ins_guesses_used := entry_guesses_used entry;
                         ins_won := entry_won entry;
                         ins_is_seed := false |}])
        end
    end.

(** [submitToLeaderboard(guessesUsed, won)]: flags after the call
    ([isSubmitting] is reset in [finally]) and the leaderboard table. The
    calls that follow a success ([fetchPuzzleLeaderboard],
    [getUserRanking]) only read, and return their errors instead of
    throwing. *)
Definition submitToLeaderboard (supabase : bool) (ans : SupabaseAnswers)
    (args : LeaderboardArgs) (flags : SubmitFlags)
    (db : list LbInsertRow) (guessesUsed : Z) (won : bool)
    : SubmitResult * SubmitFlags * list LbInsertRow :=
  match la_discordUserId args, la_puzzleDate args with
  | Some uid, Some pdate =>
      if negb (truthy (Some uid)) || negb (truthy (Some pdate))
         || isSubmitting flags || hasSubmitted flags
      then (SubmitInvalidState, flags, db)
      else
        let entry := {| discord_user_id := uid;
                        discord_username := la_discordUsername args;
                        discord_avatar := None;
                        guild_id := la_guildId args;
                        puzzle_date := pdate;
                        puzzle_number := la_puzzleNumber args;
                        entry_guesses_used := if won then guessesUsed else 5;
                        entry_won := won |} in
        let '(result, db') := submitLeaderboardEntry supabase ans entry db in
        let submitted := match result with SubmitSuccess => true | _ => hasSubmitted flags end in
        (result, {| isSubmitting := false; hasSubmitted := submitted |}, db')
  | _, _ => (SubmitInvalidState, flags, db)
  end.

(* ------------------------------------------------------------------ *)
(** ** ArchiveModal: [generateLocalArchive] *)

Record ArchiveItem := {
  item_date : string;
  item_number : jsnum
}.

(** [new Date(EPOCH_DATE + 'T00:00:00Z')] *)
Definition epoch_ms : Z :=
  match parse_iso_date EPOCH_DATE with Some d => d * msPerDay | None => 0 end.

Definition archive_item (current : Z) : ArchiveItem :=
  let dateStr := iso_date_of_ms current in
  {| item_date := dateStr; item_number := getPuzzleNumber dateStr |}.

(** [while (current < today) { push; current.setDate(current.getDate() + 1) }],
    with [fuel] bounding the iterations. *)
Fixpoint archive_loop (tz : timezone) (now : Z) (fuel : nat) (current : Z)
    (archive : list ArchiveItem) : list ArchiveItem :=
  match fuel with
  | O => archive
  | S f =>
      if Z.ltb current now
      then archive_loop tz now f (setDate_add tz current 1) (archive ++ [archive_item current])
      else archive
  end.

(** [generateLocalArchive()] at the instant [now]. The fuel allows one
    iteration per half day between the first [current] and [now], more than
    the loop makes when each [setDate] step advances at least half a day. *)
Definition generateLocalArchive (tz : timezone) (now : Z) : list ArchiveItem :=
  let current := setDate_add tz epoch_ms 1 in
  let fuel := S (Z.to_nat ((now - current) / (msPerDay / 2))) in
  rev (archive_loop tz now fuel current []).

(** Day number of [EPOCH_DATE]. *)
Definition EPOCH_DAY : Z := days_from_civil 2026 1 15.

(** The archive listing as the spec words it (C9): one item per date from
    the epoch date (inclusive) to the current UTC date (exclusive), with its
    puzzle number (days since the epoch), newest first. *)
Definition spec_local_archive (now : Z) : list ArchiveItem :=
  map (fun k : nat => {| item_date := iso_of_day (EPOCH_DAY + Z.of_nat k);
                         item_number := JNum (Z.of_nat k) |})
      (rev (seq 0 (Z.to_nat (now / msPerDay - EPOCH_DAY)))).

(* ------------------------------------------------------------------ *)
(** ** dailyPuzzle.js: the other entry points *)

Inductive PlayReason := NewUser | NewDay | AlreadyCompletedToday | ContinueGame.

Record CanPlay := {
  canPlay : bool;
  reason : PlayReason;
  existingState : option GameState
}.

(** [canPlayToday()], [today] being [getEffectiveDate()]. *)
Definition canPlayToday (today : string) (st : Store) : CanPlay :=
  let state := loadGameState st in
  if negb (truthy (lastPlayedDate state)) then
    {| canPlay := true; reason := NewUser; existingState := None |}
  else if negb (opt_string_eqb (lastPlayedDate state) today) then
    {| canPlay := true; reason := NewDay; existingState := None |}
  else if alreadyCompleted state then
    {| canPlay := false; reason := AlreadyCompletedToday; existingState := Some state |}
  else {| canPlay := true; reason := ContinueGame; existingState := Some state |}.

(** [initializeTodayGame()]. The fresh state has no [modalShown] field in
    the source; it reads as [false] (falsy, and the default on load). *)
Definition initializeTodayGame (today : string) (st : Store) : GameState * Store :=
  let r := canPlayToday today st in
  match reason r, existingState r with
  | ContinueGame, Some existing => (existing, st)
  | _, _ =>
      let newState := {| lastPlayedDate := Some today;
                         lastPuzzleNumber := Some (getPuzzleNumber today);
                         guesses := []; gameStatus := InProgress; modalShown := false |} in
      (newState, saveGameState newState st)
  end.

(** [getMillisecondsUntilNextPuzzle()] at the instant [now]:
    [setUTCDate(getUTCDate() + 1)] adds a UTC day, [setUTCHours(0, 0, 0, 0)]
    truncates to the UTC midnight. *)
Definition setUTCDate_add (t k : Z) : Z := t + k * msPerDay.
Definition setUTCHours0 (t : Z) : Z := (t / msPerDay) * msPerDay.

Definition getMillisecondsUntilNextPuzzle (now : Z) : Z :=
  let tomorrow := setUTCHours0 (setUTCDate_add now 1) in
  tomorrow - now.

(** Decimal digits of a non-negative integer ([fuel] bounds the digits). *)
Fixpoint dec_digits (fuel : nat) (n : Z) : string :=
  match fuel with
  | O => EmptyString
  | S f => if Z.ltb n 10 then String (digit n) EmptyString
           else String.append (dec_digits f (n / 10)) (String (digit (n mod 10)) EmptyString)
  end.

(** [String(n)] for an integer [n]. *)
Definition js_int_to_string (n : Z) : string :=
  if Z.ltb n 0 then String "-" (dec_digits (S (Z.to_nat (Z.log2 (- n)))) (- n))
  else dec_digits (S (Z.to_nat (Z.log2 n))) n.

(** [s.padStart(2, '0')] *)
Definition padStart2 (s : string) : string :=
  match String.length s with
  | O => "00"
  | 1%nat => String "0" s
  | _ => s
  end.

(** [formatCountdown(ms)]; JS [%] is the truncated remainder [Z.rem]. *)
Definition formatCountdown (ms : Z) : string :=
  let totalSeconds := ms / 1000 in
  let hours := totalSeconds / 3600 in
  let minutes := Z.rem totalSeconds 3600 / 60 in
  let seconds := Z.rem totalSeconds 60 in
  String.append (padStart2 (js_int_to_string hours))
    (String ":" (String.append (padStart2 (js_int_to_string minutes))
      (String ":" (padStart2 (js_int_to_string seconds))))).

(** The initial [gameState] of [useDailyPuzzle]: the existing state of
    [canPlayToday()] if any, else [initializeTodayGame()]. *)
Definition useDailyPuzzle_initialGameState (today : string) (st : Store) : GameState * Store :=
  match existingState (canPlayToday today st) with
  | Some existing => (existing, st)
  | None => initializeTodayGame today st
  end.

(** Sum of the counts of a [guessDistribution]. *)
Definition dist_total (m : gmap Z Z) : Z :=
  fold_right (fun kv acc => snd kv + acc) 0 (map_to_list m).

(* ------------------------------------------------------------------ *)
(** ** ArchiveModal: archive completions ([bowldem_archive_completed]) *)

(** [loadArchiveCompleted()]: the stored object, [{}] when absent. *)
Definition loadArchiveCompleted (stored : option (gmap string string)) : gmap string string :=
  match stored with Some m => m | None => ∅ end.

(** [saveArchiveCompletion(puzzleDate, result)] *)
Definition saveArchiveCompletion (puzzleDate result : string)
    (stored : option (gmap string string)) : option (gmap string string) :=
  Some (<[puzzleDate := result]> (loadArchiveCompleted stored)).

(* ------------------------------------------------------------------ *)
(** ** App (part_004): archive and daily guess handlers *)

(** The archive-mode React state. *)
Record ArchiveGame := {
  archiveFeedbackList : list Feedback;
  archiveUsedPlayers : gset string;
  archiveGameWon : bool;
  archiveGameOver : bool
}.

(** [handleArchiveGuess(playerKey)], run to completion (the [isChecking]
    flag blocks other guesses until the 300 ms timeout has run).
    [puzzle] is [archivePuzzle || currentPuzzle] as [generateNewFeedback]
    resolves it; [completed] is the stored archive completions. *)
Definition handleArchiveGuess (players : list Player) (puzzle : option Puzzle)
    (archivePuzzleDate : string) (g : ArchiveGame) (completed : option (gmap string string))
    (playerKey : string) : ArchiveGame * option (gmap string string) :=
  if archiveGameWon g || archiveGameOver g || bool_decide (playerKey ∈ archiveUsedPlayers g)
  then (g, completed)
  else
    let used := {[playerKey]} ∪ archiveUsedPlayers g in
    match generateNewFeedback players playerKey puzzle with
    | None => ({| archiveFeedbackList := archiveFeedbackList g; archiveUsedPlayers := used;
                  archiveGameWon := archiveGameWon g; archiveGameOver := archiveGameOver g |},
               completed)
    | Some feedback =>
        let newFeedback := archiveFeedbackList g ++ [feedback] in
        let isLastGuess := Nat.leb MAX_GUESSES (length newFeedback) in
        if isMVP feedback then
          ({| archiveFeedbackList := newFeedback; archiveUsedPlayers := used;
              archiveGameWon := true; archiveGameOver := archiveGameOver g |},
           saveArchiveCompletion archivePuzzleDate "won" completed)
        else if isLastGuess then
          ({| archiveFeedbackList := newFeedback; archiveUsedPlayers := used;
              archiveGameWon := archiveGameWon g; archiveGameOver := true |},
           saveArchiveCompletion archivePuzzleDate "lost" completed)
        else
          ({| archiveFeedbackList := newFeedback; archiveUsedPlayers := used;
              archiveGameWon := archiveGameWon g; archiveGameOver := archiveGameOver g |},
           completed)
    end.

(** Outcome of [validateGuess(puzzleId, playerKey)] (src/src/lib/discord.jsx):
    the [validate_guess] answer of the database, or an error (no client, an
    RPC error, a null answer, an answer with [error], or a thrown
    exception), on which the App falls back to [generateNewFeedback]. *)
Inductive RemoteResult :=
| RemoteFeedback (f : Feedback)
| RemoteError.

(** The daily-mode React state of App and of its [useDailyPuzzle] hook. *)
Record AppState := {
  feedbackList : list Feedback;
  usedPlayers : gset string;
  gameWon : bool;
  gameOver : bool;
  app_hook : DailyPuzzleHook
}.

Definition USE_SUPABASE_VALIDATION : bool := true.

(** [handlePlayerGuess(playerKey)], run to completion, with the hook's
    [recordGuess] and the effective date [today]. *)
Definition handlePlayerGuess (tz : timezone) (today : string) (players : list Player)
    (currentPuzzle : option Puzzle) (remote : RemoteResult) (app : AppState) (st : Store)
    (playerKey : string) : completion (AppState * Store) :=
  if gameWon app || gameOver app || bool_decide (playerKey ∈ usedPlayers app)
     || alreadyCompleted (rs_gameState (app_hook app))
  then Normal (app, st)
  else
    let used := {[playerKey]} ∪ usedPlayers app in
    let useRemote := match currentPuzzle with
                     | Some pz => USE_SUPABASE_VALIDATION && negb (String.eqb (puzzle_id pz) "")
                     | None => false
                     end in
    let feedback :=
      if useRemote then
        match remote with
        | RemoteFeedback f => Some f
        | RemoteError => generateNewFeedback players playerKey currentPuzzle
        end
      else generateNewFeedback players playerKey currentPuzzle in
    match feedback with
    | None => Normal ({| feedbackList := feedbackList app; usedPlayers := used;
                         gameWon := gameWon app; gameOver := gameOver app;
                         app_hook := app_hook app |}, st)
    | Some fb =>
        match hook_recordGuess tz today (app_hook app) st playerKey (isMVP fb) with
        | Throw e => Throw e
        | Normal (_, hook', st') =>
            let newFeedbackList := feedbackList app ++ [fb] in
            Normal ({| feedbackList := newFeedbackList; usedPlayers := used;
                       gameWon := gameWon app || isMVP fb;
                       gameOver := if isMVP fb then gameOver app
                                   else gameOver app || Nat.leb MAX_GUESSES (length newFeedbackList);
                       app_hook := hook' |}, st')
        end
    end.

(* ================================================================== *)
(** * Properties *)

(** Sanity checks of the calendar model. *)
Example iso_epoch : iso_of_day (days_from_civil 2026 1 15) = "2026-01-15".
Proof. vm_compute. reflexivity. Qed.

Example parse_epoch : parse_iso_date "2026-01-15" = Some (days_from_civil 2026 1 15).
Proof. vm_compute. reflexivity. Qed.

Example iso_1970 : iso_of_day 0 = "1970-01-01".
Proof. vm_compute. reflexivity. Qed.

(* ------------------------------------------------------------------ *)
(** ** Scoring (C1, C6) *)

Lemma playersLookup_fold (players : list Player) (m : gmap string Player) :
  (forall k p, m !! k = Some p -> player_id p = k) ->
  forall k p, foldl (fun m p => <[player_id p := p]> m) m players !! k = Some p ->
    player_id p = k /\ (m !! k = Some p \/ p ∈ players).
Proof.
  revert m. induction players as [|q players IH]; intros m Hm k p Hl; simpl in Hl.
  - split; [by apply Hm | by left].
  - apply IH in Hl as [Hid [Hin | Hin]].
    + split; [done |].
      destruct (decide (player_id q = k)) as [<- | Hne].
      * rewrite lookup_insert_eq in Hin. injection Hin as ->. right. left.
      * rewrite lookup_insert_ne in Hin by done. by left.
    + split; [done | right; by right].
    + intros k' p' Hk'. destruct (decide (player_id q = k')) as [<- | Hne].
      * rewrite lookup_insert_eq in Hk'. by injection Hk' as <-.
      * rewrite lookup_insert_ne in Hk' by done. by apply Hm.
Qed.

(** The player [findPlayer] returns is in the catalog and has the looked-up id. *)
Lemma findPlayer_sound (players : list Player) (k : string) (p : Player) :
  findPlayer players k = Some p -> player_id p = k /\ p ∈ players.
Proof.
  unfold findPlayer, playersLookup. intros H.
  apply playersLookup_fold in H as [Hid [Hin | Hin]].
  - by rewrite lookup_empty in Hin.
  - done.
  - intros k' p' Hk'. by rewrite lookup_empty in Hk'.
Qed.

Lemma existsb_eqb_elem (k : string) (l : list string) :
  existsb (String.eqb k) l = bool_decide (k ∈ l).
Proof.
  induction l as [|x l IH]; simpl.
  - reflexivity.
  - rewrite IH. destruct (String.eqb_spec k x) as [-> | Hne].
    + symmetry. apply bool_decide_eq_true_2. set_solver.
    + simpl. apply bool_decide_ext. set_solver.
Qed.

Lemma eqb_bool_decide (a b : string) : String.eqb a b = bool_decide (a = b).
Proof.
  destruct (String.eqb_spec a b); symmetry;
    [by apply bool_decide_eq_true_2 | by apply bool_decide_eq_false_2].
Qed.

(** The participants list of a puzzle: [matchData.playersInMatch || []]. *)
Definition participants (pz : Puzzle) : list string :=
  match playersInMatch (matchData pz) with Some l => l | None => [] end.

(** C1. For a guessed id that the player catalog resolves to the candidate
    [p] (a catalog entry with that id) and any puzzle, the feedback is
    [playedInMatch = p.id ∈ participants], [sameTeamAsTarget = p.team ==
    targetTeam], [sameRoleAsTarget = p.role == targetRole] and
    [isTarget = p.id == targetIdentity], each an exact equality test. *)
Theorem generateNewFeedback_exact (players : list Player) (key : string) (p : Player)
    (pz : Puzzle) :
  findPlayer players key = Some p ->
  p ∈ players /\ player_id p = key /\
  generateNewFeedback players key (Some pz) =
    Some {| playerName := fullName p; fb_country := country p; fb_role := role p;
            playedInGame := bool_decide (player_id p ∈ participants pz);
            sameTeam := bool_decide (country p = targetPlayerTeam (matchData pz));
            sameRole := bool_decide (role p = targetPlayerRole (matchData pz));
            isMVP := bool_decide (player_id p = targetPlayer pz) |}.
Proof.
  intros Hf. destruct (findPlayer_sound _ _ _ Hf) as [Hid Hin].
  split; [done | split; [done |]].
  unfold generateNewFeedback. rewrite Hf. subst key.
  rewrite existsb_eqb_elem, !eqb_bool_decide. reflexivity.
Qed.

Definition kohli : Player :=
  {| player_id := "kohli"; fullName := "Virat Kohli"; country := "India"; role := "Batter" |}.
Definition rohit : Player :=
  {| player_id := "rohit"; fullName := "Rohit Sharma"; country := "India"; role := "Batter" |}.

Definition sample_puzzle : Puzzle :=
  {| puzzle_id := "t20wc-001"; targetPlayer := "kohli";
     matchData := {| playersInMatch := Some ["rohit"; "kohli"];
                     targetPlayerTeam := "India"; targetPlayerRole := "Batter" |} |}.

Lemma generateNewFeedback_exact_witness :
  findPlayer [rohit; kohli] "kohli" = Some kohli /\
  (kohli ∈ [rohit; kohli] /\ player_id kohli = "kohli" /\
   generateNewFeedback [rohit; kohli] "kohli" (Some sample_puzzle) =
    Some {| playerName := fullName kohli; fb_country := country kohli; fb_role := role kohli;
            playedInGame := bool_decide (player_id kohli ∈ participants sample_puzzle);
            sameTeam := bool_decide (country kohli = targetPlayerTeam (matchData sample_puzzle));
            sameRole := bool_decide (role kohli = targetPlayerRole (matchData sample_puzzle));
            isMVP := bool_decide (player_id kohli = targetPlayer sample_puzzle) |}).
Proof.
  assert (H : findPlayer [rohit; kohli] "kohli" = Some kohli) by reflexivity.
  split; [exact H | apply (generateNewFeedback_exact [rohit; kohli] "kohli" kohli sample_puzzle H)].
Defined.

(** A puzzle whose [playersInMatch] list is absent: nothing ties the
    target to the participants list in [generateNewFeedback]. *)
Definition puzzle_without_participants : Puzzle :=
  {| puzzle_id := "t20wc-002"; targetPlayer := "kohli";
     matchData := {| playersInMatch := None;
                     targetPlayerTeam := "India"; targetPlayerRole := "Batter" |} |}.

(** C6 (counterexample). The feedback can mark the guess as the target
    while [playedInMatch] is false: the invariant does not hold for every
    puzzle. *)
Lemma feedback_target_not_played :
  ~ (forall (players : list Player) (key : string) (pz : Puzzle) (f : Feedback),
       generateNewFeedback players key (Some pz) = Some f -> isMVP f = true ->
       playedInGame f = true /\ sameTeam f = true /\ sameRole f = true).
Proof.
  intros H.
  destruct (H [kohli] "kohli" puzzle_without_participants
              {| playerName := "Virat Kohli"; fb_country := "India"; fb_role := "Batter";
                 playedInGame := false; sameTeam := true; sameRole := true; isMVP := true |}
              eq_refl eq_refl) as [Hp _].
  discriminate Hp.
Qed.

(** C6 (amended). When the puzzle data are consistent (the target's id is
    in the participants list, and the catalog entry of the target has the
    puzzle's [targetPlayerTeam] as country and [targetPlayerRole] as role), a
    feedback with [isTarget] also has [playedInMatch], [sameTeamAsTarget] and
    [sameRoleAsTarget]. *)
Theorem feedback_target_consistent (players : list Player) (key : string) (pz : Puzzle)
    (f : Feedback) :
  targetPlayer pz ∈ participants pz ->
  (forall t, findPlayer players (targetPlayer pz) = Some t ->
     country t = targetPlayerTeam (matchData pz) /\ role t = targetPlayerRole (matchData pz)) ->
  generateNewFeedback players key (Some pz) = Some f ->
  isMVP f = true ->
  playedInGame f = true /\ sameTeam f = true /\ sameRole f = true.
Proof.
  intros Hin Hdata Hf Hmvp.
  unfold generateNewFeedback in Hf.
  destruct (findPlayer players key) as [p|] eqn:Hp; [| discriminate].
  injection Hf as <-. simpl in Hmvp |- *.
  apply String.eqb_eq in Hmvp. subst key.
  destruct (Hdata p Hp) as [Hc Hr].
  rewrite existsb_eqb_elem, Hc, Hr, !String.eqb_refl.
  fold (participants pz). rewrite bool_decide_eq_true_2 by done. done.
Qed.

Lemma feedback_target_consistent_witness :
  generateNewFeedback [rohit; kohli] "kohli" (Some sample_puzzle) =
    Some {| playerName := "Virat Kohli"; fb_country := "India"; fb_role := "Batter";
            playedInGame := true; sameTeam := true; sameRole := true; isMVP := true |} /\
  (playedInGame {| playerName := "Virat Kohli"; fb_country := "India"; fb_role := "Batter";
                   playedInGame := true; sameTeam := true; sameRole := true; isMVP := true |} = true /\
   sameTeam {| playerName := "Virat Kohli"; fb_country := "India"; fb_role := "Batter";
               playedInGame := true; sameTeam := true; sameRole := true; isMVP := true |} = true /\
   sameRole {| playerName := "Virat Kohli"; fb_country := "India"; fb_role := "Batter";
               playedInGame := true; sameTeam := true; sameRole := true; isMVP := true |} = true).
Proof.
  assert (Hg : generateNewFeedback [rohit; kohli] "kohli" (Some sample_puzzle) =
    Some {| playerName := "Virat Kohli"; fb_country := "India"; fb_role := "Batter";
            playedInGame := true; sameTeam := true; sameRole := true; isMVP := true |})
    by reflexivity.
  split; [exact Hg |].
  apply (feedback_target_consistent [rohit; kohli] "kohli" sample_puzzle _).
  - apply (bool_decide_eq_true_1 (targetPlayer sample_puzzle ∈ participants sample_puzzle)).
    reflexivity.
  - intros t Ht. vm_compute in Ht. injection Ht as <-. split; reflexivity.
  - exact Hg.
  - reflexivity.
Defined.

(* ------------------------------------------------------------------ *)
(** ** Puzzle selection (C5) *)

(** C5 (counterexample). With an empty catalog, selection on 2026-01-17
    (puzzle number 2) does not fail: it returns normally, with an
    [undefined] puzzle and a [NaN] index, and raises no [CatalogEmpty]. *)
Lemma select_empty_catalog_no_error :
  getPuzzleForToday [] "2026-01-17" =
    Normal {| pt_puzzle := None; pt_puzzleNumber := JNum 2; pt_puzzleIndex := JNaN |} /\
  getPuzzleForToday [] "2026-01-17" <> Throw "CatalogEmpty".
Proof. vm_compute. split; [reflexivity | discriminate]. Qed.

(** C5 (amended). For every effective date, selection from an empty
    catalog returns normally (no error) with puzzle [undefined] and index
    [NaN], as [n % 0] is [NaN]; [getPuzzleIndex] gives [NaN] for every
    puzzle number when the catalog length is 0. *)
Theorem select_empty_catalog (effectiveDate : string) :
  getPuzzleForToday [] effectiveDate =
    Normal {| pt_puzzle := None; pt_puzzleNumber := getPuzzleNumber effectiveDate;
              pt_puzzleIndex := JNaN |} /\
  (forall n : jsnum, getPuzzleIndex n 0 = JNaN).
Proof.
  split.
  - unfold getPuzzleForToday, getPuzzleIndex. simpl.
    destruct (getPuzzleNumber effectiveDate); reflexivity.
  - intros [z|]; reflexivity.
Qed.

(* ------------------------------------------------------------------ *)
(** ** Leaderboard submission (C10) *)

(** C10. A submission through [submitToLeaderboard] either stores nothing
    (refused by the hook, no client, a duplicate, an insert error) or, on
    success, stores exactly one new row, whose [guesses_used] is the
    caller's guess count when [won] is true and 5 when [won] is false. *)
Theorem submit_guesses_used (supabase : bool) (ans : SupabaseAnswers) (args : LeaderboardArgs)
    (flags : SubmitFlags) (db : list LbInsertRow) (guessesUsed : Z) (won : bool) :
  let '(result, _, db') := submitToLeaderboard supabase ans args flags db guessesUsed won in
  (result <> SubmitSuccess /\ db' = db) \/
  (result = SubmitSuccess /\
   exists e, db' = db ++ [e] /\ ins_won e = won /\
             ins_guesses_used e = (if won then guessesUsed else 5)).
Proof.
  unfold submitToLeaderboard.
  destruct (la_discordUserId args) as [uid|], (la_puzzleDate args) as [pdate|];
    try (left; split; [discriminate | reflexivity]).
  destruct (_ || _ || _ || _); [left; split; [discriminate | reflexivity] |].
  unfold submitLeaderboardEntry.
  destruct supabase; cbn [negb]; [| left; split; [discriminate | reflexivity]].
  destruct (if select_failed ans then None else _) as [r |];
    [left; split; [discriminate | reflexivity] |].
  destruct (insert_error ans) as [msg |]; [left; split; [discriminate | reflexivity] |].
  right. split; [reflexivity |]. eexists. split; [reflexivity | split; reflexivity].
Qed.

(* ------------------------------------------------------------------ *)
(** ** The game state machine (C2, C3) *)

Lemma update_stats_normal (tz : timezone) (today : string) (won : bool) (g : Z) (s : Stats) :
  parse_iso_date today <> None ->
  exists s', update_stats tz today won g s = Normal s'.
Proof.
  intros Hp. unfold update_stats, yesterdayStr.
  destruct won; [| eauto].
  destruct (parse_iso_date today); [eauto | congruence].
Qed.

Lemma completeGame_state (tz : timezone) (today : string) (won : bool) (st : Store) (gs : GameState) :
  parse_iso_date today <> None ->
  stored_state st = Some gs ->
  gameStatus gs = (if won then Won else Lost) ->
  exists st', completeGame tz today won st = Normal (gs, st') /\ stored_state st' = Some gs.
Proof.
  intros Hp Hst Hstatus.
  unfold completeGame, loadGameState. rewrite Hst.
  assert (Hgs : with_guesses_status gs (guesses gs) (if won then Won else Lost) = gs)
    by (destruct gs; simpl in *; subst; reflexivity).
  rewrite Hgs. unfold updateStatsOnComplete.
  destruct (update_stats_normal tz today won (Z.of_nat (length (guesses gs)))
              (loadStats (saveGameState gs st)) Hp) as [s' ->].
  eexists. split; reflexivity.
Qed.

(** C2. On a state that is not won or lost, with [k < MAX_GUESSES]
    recorded guesses, a guess whose feedback is [f] is appended, and the
    new status is [won] when [f] marks the target (also when
    [k + 1 = MAX_GUESSES]), [lost] when it does not and
    [k + 1 = MAX_GUESSES], and [in_progress] otherwise. The new state is
    the hook's state and the persisted one. (The effective date is a valid
    date, as [getEffectiveDate] returns.) *)
Theorem recordGuess_transition (tz : timezone) (today : string) (rs : DailyPuzzleHook)
    (st : Store) (key : string) (f : Feedback) :
  parse_iso_date today <> None ->
  alreadyCompleted (rs_gameState rs) = false ->
  (length (guesses (rs_gameState rs)) < MAX_GUESSES)%nat ->
  let gs := rs_gameState rs in
  let expected :=
    if isMVP f then Won
    else if Nat.eqb (S (length (guesses gs))) MAX_GUESSES then Lost else InProgress in
  let newState := with_guesses_status gs (guesses gs ++ [key]) expected in
  exists out rs' st',
    hook_recordGuess tz today rs st key (isMVP f) = Normal (out, rs', st') /\
    ro_newState out = newState /\ rs_gameState rs' = newState /\
    stored_state st' = Some newState.
Proof.
  intros Hp Hnc Hlen. cbv zeta.
  unfold hook_recordGuess. rewrite Hnc.
  set (gs := rs_gameState rs) in *.
  rewrite length_app. simpl length.
  assert (Hlast : Nat.leb MAX_GUESSES (length (guesses gs) + 1) =
                  Nat.eqb (S (length (guesses gs))) MAX_GUESSES).
  { unfold MAX_GUESSES in *.
    destruct (Nat.leb_spec 5 (length (guesses gs) + 1));
    destruct (Nat.eqb_spec (S (length (guesses gs))) 5); lia. }
  rewrite Hlast.
  destruct (isMVP f); cbn [negb andb orb].
  - set (ns := with_guesses_status gs (guesses gs ++ [key]) Won).
    destruct (completeGame_state tz today true (saveGameState ns st) ns Hp)
      as [st' [Hc Hs]]; [reflexivity | reflexivity |].
    rewrite Hc. do 3 eexists.
    split; [reflexivity | split; [reflexivity | split; [reflexivity | exact Hs]]].
  - destruct (Nat.eqb (S (length (guesses gs))) MAX_GUESSES); cbn [negb andb orb].
    + set (ns := with_guesses_status gs (guesses gs ++ [key]) Lost).
      destruct (completeGame_state tz today false (saveGameState ns st) ns Hp)
        as [st' [Hc Hs]]; [reflexivity | reflexivity |].
      rewrite Hc. do 3 eexists.
      split; [reflexivity | split; [reflexivity | split; [reflexivity | exact Hs]]].
    + do 3 eexists. split; [reflexivity | split; [reflexivity | split; reflexivity]].
Qed.

Definition gs_four_guesses : GameState :=
  {| lastPlayedDate := Some "2026-01-17"; lastPuzzleNumber := Some (JNum 2);
     guesses := ["rohit"; "gill"; "pant"; "hardik"]; gameStatus := InProgress;
     modalShown := false |}.

Definition hook_four_guesses : DailyPuzzleHook :=
  {| rs_gameState := gs_four_guesses; rs_stats := RStats getDefaultStats |}.

Definition store_four_guesses : Store :=
  {| stored_state := Some gs_four_guesses; stored_stats := None |}.

Definition feedback_kohli : Feedback :=
  {| playerName := "Virat Kohli"; fb_country := "India"; fb_role := "Batter";
     playedInGame := true; sameTeam := true; sameRole := true; isMVP := true |}.

(** The fifth and last guess is the target: the game is won. *)
Lemma recordGuess_transition_witness :
  parse_iso_date "2026-01-17" <> None /\
  alreadyCompleted gs_four_guesses = false /\
  (length (guesses gs_four_guesses) < MAX_GUESSES)%nat /\
  exists out rs' st',
    hook_recordGuess utc_zone "2026-01-17" hook_four_guesses store_four_guesses "kohli"
      (isMVP feedback_kohli) = Normal (out, rs', st') /\
    ro_newState out = with_guesses_status gs_four_guesses (guesses gs_four_guesses ++ ["kohli"]) Won /\
    rs_gameState rs' = with_guesses_status gs_four_guesses (guesses gs_four_guesses ++ ["kohli"]) Won /\
    stored_state st' = Some (with_guesses_status gs_four_guesses (guesses gs_four_guesses ++ ["kohli"]) Won).
Proof.
  assert (Hp : parse_iso_date "2026-01-17" <> None) by (vm_compute; discriminate).
  assert (Hc : alreadyCompleted gs_four_guesses = false) by reflexivity.
  assert (Hl : (length (guesses gs_four_guesses) < MAX_GUESSES)%nat) by (vm_compute; lia).
  split; [exact Hp | split; [exact Hc | split; [exact Hl |]]].
  exact (recordGuess_transition utc_zone "2026-01-17" hook_four_guesses store_four_guesses
           "kohli" feedback_kohli Hp Hc Hl).
Defined.

(** C3. When the status is won or lost, a further guess changes nothing:
    the hook's [recordGuess] returns the existing state, leaves the React
    state and localStorage as they were, and so does [recordGuess] of
    dailyPuzzle.js on a stored terminal state. *)
Theorem recordGuess_terminal_noop (tz : timezone) (today : string) (rs : DailyPuzzleHook)
    (st : Store) (key : string) (isCorrect : bool) :
  alreadyCompleted (rs_gameState rs) = true ->
  hook_recordGuess tz today rs st key isCorrect =
    Normal ({| ro_newState := rs_gameState rs; ro_isGameOver := true;
               ro_won := status_eqb (gameStatus (rs_gameState rs)) Won |}, rs, st) /\
  (alreadyCompleted (loadGameState st) = true ->
   recordGuess key st = (loadGameState st, st)).
Proof.
  intros Hc. split.
  - unfold hook_recordGuess. by rewrite Hc.
  - intros Hs. unfold recordGuess, alreadyCompleted in *.
    destruct (gameStatus (loadGameState st)); done.
Qed.

Definition gs_won : GameState :=
  {| lastPlayedDate := Some "2026-01-17"; lastPuzzleNumber := Some (JNum 2);
     guesses := ["rohit"; "kohli"]; gameStatus := Won; modalShown := true |}.

Definition hook_won : DailyPuzzleHook :=
  {| rs_gameState := gs_won; rs_stats := RStats getDefaultStats |}.

Definition store_won : Store := {| stored_state := Some gs_won; stored_stats := None |}.

Lemma recordGuess_terminal_noop_witness :
  alreadyCompleted (rs_gameState hook_won) = true /\
  hook_recordGuess utc_zone "2026-01-17" hook_won store_won "pant" false =
    Normal ({| ro_newState := gs_won; ro_isGameOver := true; ro_won := true |},
            hook_won, store_won) /\
  (alreadyCompleted (loadGameState store_won) = true ->
   recordGuess "pant" store_won = (loadGameState store_won, store_won)).
Proof.
  assert (Hc : alreadyCompleted (rs_gameState hook_won) = true) by reflexivity.
  split; [exact Hc |].
  exact (recordGuess_terminal_noop utc_zone "2026-01-17" hook_won store_won "pant" false Hc).
Defined.

(* ------------------------------------------------------------------ *)
(** ** Statistics (C4) *)

Lemma setDate_add_fixed (tz : timezone) (c t k : Z) :
  (forall x, off_utc tz x = c) -> (forall x, off_local tz x = c) ->
  setDate_add tz t k = t + k * msPerDay.
Proof.
  intros Hu Hl. unfold setDate_add, UTC, LocalTime. rewrite Hu, Hl. lia.
Qed.

(** The streak rule of the spec, for the effective date [today] whose day
    number is [d]: the day before is [iso_of_day (d - 1)]. *)
Definition spec_streak (s : Stats) (today : string) (d : Z) : Z :=
  if opt_string_eqb (lastWinDate s) (iso_of_day (d - 1)) then currentStreak s + 1
  else if negb (opt_string_eqb (lastWinDate s) today) then 1
  else currentStreak s.

(** In a time zone with a fixed UTC offset (UTC among them) the update is
    the one of the spec: [gamesPlayed + 1]; on a win [gamesWon + 1],
    [guessDistribution[attemptsUsed - 1] + 1], the streak rule with the
    calendar day before, [maxStreak = max(maxStreak, currentStreak)] and
    [lastWinDate = today]; on a loss only [currentStreak = 0]. *)
Lemma update_stats_fixed_offset (tz : timezone) (c : Z) (today : string) (d : Z)
    (won : bool) (g : Z) (s : Stats) :
  (forall x, off_utc tz x = c) -> (forall x, off_local tz x = c) ->
  parse_iso_date today = Some d ->
  update_stats tz today won g s =
    Normal (if won then
              {| gamesPlayed := gamesPlayed s + 1; gamesWon := gamesWon s + 1;
                 currentStreak := spec_streak s today d;
                 maxStreak := Z.max (maxStreak s) (spec_streak s today d);
                 guessDistribution :=
                   <[g - 1 := default 0 (guessDistribution s !! (g - 1)) + 1]> (guessDistribution s);
                 lastWinDate := Some today |}
            else
              {| gamesPlayed := gamesPlayed s + 1; gamesWon := gamesWon s;
                 currentStreak := 0; maxStreak := maxStreak s;
                 guessDistribution := guessDistribution s; lastWinDate := lastWinDate s |}).
Proof.
  intros Hu Hl Hd. unfold update_stats, yesterdayStr. rewrite Hd.
  destruct won; [| reflexivity].
  rewrite (setDate_add_fixed tz c _ _ Hu Hl). unfold iso_date_of_ms.
  replace (d * msPerDay + -1 * msPerDay) with ((d - 1) * msPerDay) by lia.
  rewrite Z.div_mul by (unfold msPerDay; lia). reflexivity.
Qed.

Definition stats_won_yesterday : Stats :=
  {| gamesPlayed := 10; gamesWon := 8; currentStreak := 3; maxStreak := 5;
     guessDistribution := guessDistribution getDefaultStats;
     lastWinDate := Some "2026-11-01" |}.

(** C4 (failing input). A player in New York who won on 2026-11-01 wins
    again on 2026-11-02. [yesterdayStr] is computed with [setDate] on local
    days from UTC midnight, so across the end of daylight saving time it is
    "2026-10-31", not the day before "2026-11-01": the streak is reset to 1
    instead of growing to 4 (as it does in UTC). *)
Lemma streak_reset_across_dst_end :
  iso_of_day (days_from_civil 2026 11 2 - 1) = "2026-11-01" /\
  yesterdayStr us_eastern_2026 "2026-11-02" = Normal "2026-10-31" /\
  (exists s', update_stats us_eastern_2026 "2026-11-02" true 2 stats_won_yesterday = Normal s' /\
              currentStreak s' = 1) /\
  (exists s', update_stats utc_zone "2026-11-02" true 2 stats_won_yesterday = Normal s' /\
              currentStreak s' = 4).
Proof.
  split; [vm_compute; reflexivity |].
  split; [vm_compute; reflexivity |].
  split; eexists; (split; [vm_compute; reflexivity | reflexivity]).
Qed.

(* ------------------------------------------------------------------ *)
(** ** Ranking (C7) *)

(** The rank order: fewer guesses first, then earlier submission. *)
Definition row_le (a b : LbRow) : Prop :=
  guesses_used a < guesses_used b \/
  (guesses_used a = guesses_used b /\ created_at a <= created_at b).

Lemma top_cmp_le (a b : LbRow) : Z.leb (top_cmp a b) 0 = true <-> row_le a b.
Proof.
  unfold top_cmp, row_le. rewrite Z.leb_le.
  destruct (Z.eqb_spec (guesses_used a) (guesses_used b)); simpl; lia.
Qed.

Lemma row_le_total (a b : LbRow) : ~ row_le a b -> row_le b a.
Proof. unfold row_le. lia. Qed.

Lemma row_le_trans (a b c : LbRow) : row_le a b -> row_le b c -> row_le a c.
Proof. unfold row_le. lia. Qed.

Lemma insert_row_perm (x : LbRow) (l : list LbRow) : Permutation (insert_row x l) (x :: l).
Proof.
  induction l as [|y l IH]; simpl; [reflexivity |].
  destruct (Z.leb (top_cmp x y) 0); [reflexivity |].
  rewrite IH. apply perm_swap.
Qed.

Lemma sort_rows_perm (l : list LbRow) : Permutation (sort_rows l) l.
Proof.
  induction l as [|x l IH]; simpl; [reflexivity |].
  rewrite insert_row_perm, IH. reflexivity.
Qed.

Lemma insert_row_hdrel (x y : LbRow) (l : list LbRow) :
  HdRel row_le y l -> row_le y x -> HdRel row_le y (insert_row x l).
Proof.
  intros Hh Hyx. destruct l as [|z l]; simpl.
  - constructor. exact Hyx.
  - destruct (Z.leb (top_cmp x z) 0); constructor; [exact Hyx |]. by inversion Hh.
Qed.

Lemma insert_row_sorted (x : LbRow) (l : list LbRow) :
  Sorted row_le l -> Sorted row_le (insert_row x l).
Proof.
  induction 1 as [|y l Hs IH Hh]; simpl.
  - repeat constructor.
  - destruct (Z.leb (top_cmp x y) 0) eqn:Hc.
    + constructor; [constructor; assumption |]. constructor. by apply top_cmp_le.
    + constructor; [exact IH |]. apply insert_row_hdrel; [exact Hh |].
      apply row_le_total. intros H. apply top_cmp_le in H. congruence.
Qed.

Lemma sort_rows_sorted (l : list LbRow) : Sorted row_le (sort_rows l).
Proof.
  induction l as [|x l IH]; simpl; [constructor |]. by apply insert_row_sorted.
Qed.

(** Six winning rows, one guess each, submitted one minute apart. *)
Definition six_winners : list LbRow :=
  map (fun k => {| row_user := "user"; guesses_used := 1; row_won := true;
                   created_at := k * 60000 |}) [0; 1; 2; 3; 4; 5].

(** C7 (counterexample). [getTopEntries] (default [n = 5]) does not keep
    every winning entry: of six winners only five are returned. *)
Lemma top_entries_drop_winner :
  ~ Permutation (getTopEntries six_winners 5) (List.filter (fun e => row_won e) six_winners).
Proof.
  intros H. apply Permutation_length in H. vm_compute in H. discriminate H.
Qed.

(** C7 (amended). The top-[n] ranking ([n = 5] by default in
    [getTopEntries], 20 in [LeaderboardModal]) is the first [n] entries of
    an ordering [s] of exactly the winning entries, sorted ascending by
    [guesses_used] and, at equal [guesses_used], ascending by submission
    time: no losing entry appears, and an earlier winner ranks first at
    equal guesses. *)
Theorem top_entries_ranked (rows : list LbRow) (n : nat) :
  exists s, Permutation s (List.filter (fun e => row_won e) rows) /\
            StronglySorted row_le s /\
            getTopEntries rows n = take n s.
Proof.
  exists (sort_rows (List.filter (fun e => row_won e) rows)). split; [apply sort_rows_perm |].
  split; [| reflexivity].
  apply Sorted_StronglySorted; [exact row_le_trans | apply sort_rows_sorted].
Qed.

(** The spec's tie-break scenario: two winners with 2 guesses, submitted at
    10:00 and 10:05 (given in the order 10:05, 10:00), rank 10:00 first. *)
Example tie_break_earlier_first :
  getTopEntries
    [{| row_user := "late"; guesses_used := 2; row_won := true; created_at := 36300000 |};
     {| row_user := "early"; guesses_used := 2; row_won := true; created_at := 36000000 |};
     {| row_user := "lost"; guesses_used := 5; row_won := false; created_at := 35000000 |}] 5 =
    [{| row_user := "early"; guesses_used := 2; row_won := true; created_at := 36000000 |};
     {| row_user := "late"; guesses_used := 2; row_won := true; created_at := 36300000 |}].
Proof. reflexivity. Qed.

(* ------------------------------------------------------------------ *)
(** ** Percentile (C8) *)

(** An entry that "did better" than the result ([guessesUsed], [won]):
    any winning entry against a loss, a winning entry with strictly fewer
    guesses against a win. *)
Definition did_better (guessesUsed : Z) (won : bool) (e : LbRow) : bool :=
  row_won e && (negb won || Z.ltb (guesses_used e) guessesUsed).

Lemma count_better_filter (entries : list LbRow) (g : Z) (w : bool) (acc : Z) :
  count_better entries g w acc = acc + Z.of_nat (length (List.filter (did_better g w) entries)).
Proof.
  revert acc. induction entries as [|e rest IH]; intros acc; simpl; [lia |].
  rewrite IH. unfold did_better.
  destruct (row_won e), w, (Z.ltb (guesses_used e) g); simpl; rewrite ?length_cons; lia.
Qed.

(** C8 (counterexample). On an empty leaderboard the percentile is
    [null], not 0. *)
Lemma percentile_empty_is_null :
  calculatePercentile [] 3 true = None /\ calculatePercentile [] 3 true <> Some 0.
Proof. split; [reflexivity | discriminate]. Qed.

(** C8 (amended). The percentile is [null] when the leaderboard is empty;
    otherwise it is [Math.round((total - betterCount) / total * 100)],
    computed in double precision, where [total] is the number of entries
    and [betterCount] counts the winning entries when the result is a loss,
    and the winning entries with strictly fewer guesses when it is a win. *)
Theorem percentile_formula (entries : list LbRow) (guessesUsed : Z) (won : bool) :
  calculatePercentile entries guessesUsed won =
    match entries with
    | [] => None
    | _ :: _ =>
        let total := Z.of_nat (length entries) in
        let betterCount := Z.of_nat (length (List.filter (did_better guessesUsed won) entries)) in
        Some (math_round_0_100
                (PrimFloat.mul (PrimFloat.div (float_of_Z (total - betterCount)) (float_of_Z total))
                               100%float))
    end.
Proof.
  unfold calculatePercentile. rewrite count_better_filter.
  destruct entries as [|e rest]; [reflexivity |].
  destruct (Z.eqb_spec (Z.of_nat (length (e :: rest))) 0) as [H0 | _];
    [simpl in H0; lia | reflexivity].
Qed.

(** Double precision matters: with 40 entries of which 17 did better,
    [23 / 40 * 100] is [57.49999999999999] in doubles and the percentile is
    57, where the exact value 57.5 would round to 58. *)
Example percentile_double_rounding :
  calculatePercentile
    (repeat {| row_user := "w"; guesses_used := 1; row_won := true; created_at := 0 |} 17 ++
     repeat {| row_user := "l"; guesses_used := 5; row_won := false; created_at := 0 |} 23)
    5 false = Some 57.
Proof. vm_compute. reflexivity. Qed.

(* ------------------------------------------------------------------ *)
(** ** The local archive (C9) *)

Lemma epoch_ms_day : epoch_ms = EPOCH_DAY * msPerDay.
Proof. vm_compute. reflexivity. Qed.

(** In a fixed-offset zone the loop lists consecutive days from its start
    day [x]; it stops when the next day is not before [now] or when the
    fuel runs out. *)
Lemma archive_loop_fixed (tz : timezone) (c now : Z) :
  (forall t, off_utc tz t = c) -> (forall t, off_local tz t = c) ->
  forall (fuel : nat) (x : Z) (acc : list ArchiveItem),
  exists m : nat,
    archive_loop tz now fuel (x * msPerDay) acc =
      acc ++ map (fun i : nat => archive_item ((x + Z.of_nat i) * msPerDay)) (seq 0 m) /\
    (forall i : nat, (i < m)%nat -> (x + Z.of_nat i) * msPerDay < now) /\
    (m = fuel \/ now <= (x + Z.of_nat m) * msPerDay).
Proof.
  intros Hu Hl. induction fuel as [|fuel IH]; intros x acc.
  - exists 0%nat. simpl. rewrite app_nil_r. split; [reflexivity | split; [lia | by left]].
  - simpl. destruct (Z.ltb_spec (x * msPerDay) now) as [Hlt | Hge].
    + rewrite (setDate_add_fixed tz c _ _ Hu Hl).
      replace (x * msPerDay + 1 * msPerDay) with ((x + 1) * msPerDay) by lia.
      destruct (IH (x + 1) (acc ++ [archive_item (x * msPerDay)])) as (m & Heq & Hbel & Hend).
      exists (S m). rewrite Heq. split; [| split].
      * rewrite <- app_assoc. f_equal. simpl. rewrite Z.add_0_r. f_equal.
        rewrite <- seq_shift, map_map. apply map_ext. intros i. f_equal. lia.
      * intros [|i] Hi; [rewrite Z.add_0_r; exact Hlt |].
        specialize (Hbel i ltac:(lia)). replace (x + Z.of_nat (S i)) with (x + 1 + Z.of_nat i) by lia.
        exact Hbel.
      * destruct Hend as [-> | Hend]; [by left | right].
        replace (x + Z.of_nat (S m)) with (x + 1 + Z.of_nat m) by lia. exact Hend.
    + exists 0%nat. simpl. rewrite app_nil_r. split; [reflexivity | split; [lia |]].
      right. rewrite Z.add_0_r. exact Hge.
Qed.

Definition now_2026_01_17_noon : Z := days_from_civil 2026 1 17 * msPerDay + 12 * msPerHour.

(** C9 (counterexample). In UTC on 2026-01-17 at noon, the local archive is
    [2026-01-17 (#2); 2026-01-16 (#1)]: the epoch date 2026-01-15 is not
    listed and the current date is, so it is not the listing from the
    epoch (inclusive) to the current date (exclusive). *)
Lemma local_archive_not_epoch_to_today :
  generateLocalArchive utc_zone now_2026_01_17_noon =
    [{| item_date := "2026-01-17"; item_number := JNum 2 |};
     {| item_date := "2026-01-16"; item_number := JNum 1 |}] /\
  generateLocalArchive utc_zone now_2026_01_17_noon <> spec_local_archive now_2026_01_17_noon.
Proof.
  split; [vm_compute; reflexivity |].
  intros H. vm_compute in H. discriminate H.
Qed.

(** C9 (amended). In a runtime whose local time zone has a fixed UTC
    offset, the local archive lists, newest first, the consecutive dates
    from the day after the epoch (the epoch date itself is never listed),
    each resolved to its date string and its [getPuzzleNumber]; every
    listed date's UTC midnight is before the current instant, and every date
    up to the day before the current date is listed. *)
Theorem local_archive_consecutive (tz : timezone) (c now : Z) :
  (forall t, off_utc tz t = c) -> (forall t, off_local tz t = c) ->
  exists m : nat,
    generateLocalArchive tz now =
      map (fun k : nat => {| item_date := iso_of_day (EPOCH_DAY + Z.of_nat k);
                             item_number := getPuzzleNumber (iso_of_day (EPOCH_DAY + Z.of_nat k)) |})
          (rev (seq 1 m)) /\
    (forall k : nat, (1 <= k <= m)%nat -> (EPOCH_DAY + Z.of_nat k) * msPerDay < now) /\
    (forall k : nat, (1 <= k)%nat -> (EPOCH_DAY + Z.of_nat k + 1) * msPerDay <= now -> (k <= m)%nat).
Proof.
  intros Hu Hl. unfold generateLocalArchive.
  rewrite epoch_ms_day, (setDate_add_fixed tz c _ _ Hu Hl).
  replace (EPOCH_DAY * msPerDay + 1 * msPerDay) with ((EPOCH_DAY + 1) * msPerDay) by lia.
  set (q := (now - (EPOCH_DAY + 1) * msPerDay) / (msPerDay / 2)).
  destruct (archive_loop_fixed tz c now Hu Hl (S (Z.to_nat q)) (EPOCH_DAY + 1) [])
    as (m & Heq & Hbel & Hend).
  exists m. rewrite Heq. simpl app. split; [| split].
  - rewrite <- seq_shift, <- !map_rev, map_map.
    apply map_ext. intros i. unfold archive_item, iso_date_of_ms.
    rewrite Z.div_mul by (unfold msPerDay; lia).
    replace (EPOCH_DAY + Z.of_nat (S i)) with (EPOCH_DAY + 1 + Z.of_nat i) by lia.
    reflexivity.
  - intros k Hk. specialize (Hbel (k - 1)%nat ltac:(lia)).
    replace (EPOCH_DAY + Z.of_nat k) with (EPOCH_DAY + 1 + Z.of_nat (k - 1)) by lia.
    exact Hbel.
  - intros k Hk Hday. destruct Hend as [-> | Hend].
    + assert (Hq : Z.of_nat k <= q).
      { unfold q. change (msPerDay / 2) with 43200000.
        apply Z.div_le_lower_bound; [lia |]. unfold msPerDay in *. lia. }
      lia.
    + assert (Hlt : (EPOCH_DAY + Z.of_nat k + 1) * msPerDay <= (EPOCH_DAY + 1 + Z.of_nat m) * msPerDay)
        by lia.
      apply Z.mul_le_mono_pos_r in Hlt; [lia | unfold msPerDay; lia].
Qed.

Lemma local_archive_consecutive_witness :
  (forall t, off_utc utc_zone t = 0) /\ (forall t, off_local utc_zone t = 0) /\
  exists m : nat,
    generateLocalArchive utc_zone now_2026_01_17_noon =
      map (fun k : nat => {| item_date := iso_of_day (EPOCH_DAY + Z.of_nat k);
                             item_number := getPuzzleNumber (iso_of_day (EPOCH_DAY + Z.of_nat k)) |})
          (rev (seq 1 m)) /\
    (forall k : nat, (1 <= k <= m)%nat -> (EPOCH_DAY + Z.of_nat k) * msPerDay < now_2026_01_17_noon) /\
    (forall k : nat, (1 <= k)%nat -> (EPOCH_DAY + Z.of_nat k + 1) * msPerDay <= now_2026_01_17_noon ->
                     (k <= m)%nat).
Proof.
  assert (Hu : forall t, off_utc utc_zone t = 0) by reflexivity.
  assert (Hl : forall t, off_local utc_zone t = 0) by reflexivity.
  split; [exact Hu | split; [exact Hl |]].
  exact (local_archive_consecutive utc_zone 0 now_2026_01_17_noon Hu Hl).
Defined.

(* ================================================================== *)
(** * Further properties of the code *)

(** ** Puzzle selection *)

Lemma parse_EPOCH_DATE : parse_iso_date EPOCH_DATE = Some EPOCH_DAY.
Proof. vm_compute. reflexivity. Qed.

Lemma getPuzzleForToday_parsed (puzzles : list Puzzle) (s : string) (d : Z) :
  parse_iso_date s = Some d ->
  getPuzzleForToday puzzles s =
    Normal {| pt_puzzle := js_index puzzles
                (getPuzzleIndex (JNum (Z.max 0 (d - EPOCH_DAY))) (Z.of_nat (length puzzles)));
              pt_puzzleNumber := JNum (Z.max 0 (d - EPOCH_DAY));
              pt_puzzleIndex :=
                getPuzzleIndex (JNum (Z.max 0 (d - EPOCH_DAY))) (Z.of_nat (length puzzles)) |}.
Proof.
  intros Hs. unfold getPuzzleForToday, getPuzzleNumber.
  rewrite Hs, parse_EPOCH_DATE. cbn [js_max0].
  rewrite <- Z.mul_sub_distr_r, Z.div_mul by (unfold msPerDay; lia).
  reflexivity.
Qed.

(** X1. [getPuzzleNumber] of a well-formed date is the number of days since
    [EPOCH_DATE], and 0 for every date before it. *)
Theorem getPuzzleNumber_days_since_epoch (s : string) (d : Z)
    (Hs : parse_iso_date s = Some d) :
  getPuzzleNumber s = JNum (Z.max 0 (d - EPOCH_DAY)) /\
  (d <= EPOCH_DAY -> getPuzzleNumber s = JNum 0).
Proof.
  assert (H : getPuzzleNumber s = JNum (Z.max 0 (d - EPOCH_DAY))).
  { unfold getPuzzleNumber. rewrite Hs, parse_EPOCH_DATE. cbn [js_max0].
    rewrite <- Z.mul_sub_distr_r, Z.div_mul by (unfold msPerDay; lia).
    reflexivity. }
  split; [exact H |]. intros Hle. rewrite H. f_equal. lia.
Qed.

Lemma getPuzzleNumber_days_since_epoch_witness :
  parse_iso_date "2026-02-01" = Some (EPOCH_DAY + 17) /\
  getPuzzleNumber "2026-02-01" = JNum (Z.max 0 (EPOCH_DAY + 17 - EPOCH_DAY)) /\
  (EPOCH_DAY + 17 <= EPOCH_DAY -> getPuzzleNumber "2026-02-01" = JNum 0).
Proof.
  assert (Hs : parse_iso_date "2026-02-01" = Some (EPOCH_DAY + 17)) by (vm_compute; reflexivity).
  split; [exact Hs |].
  exact (getPuzzleNumber_days_since_epoch "2026-02-01" (EPOCH_DAY + 17) Hs).
Defined.

(** X2. With a non-empty catalog, [getPuzzleForToday] on a well-formed date
    always yields a puzzle of the catalog: the index is in range. *)
Theorem getPuzzleForToday_in_catalog (puzzles : list Puzzle) (s : string) (d : Z)
    (Hne : puzzles <> []) (Hs : parse_iso_date s = Some d) :
  exists (i : Z) (p : Puzzle) (r : PuzzleForToday),
    getPuzzleForToday puzzles s = Normal r /\
    pt_puzzleIndex r = JNum i /\ 0 <= i < Z.of_nat (length puzzles) /\
    puzzles !! Z.to_nat i = Some p /\ pt_puzzle r = Some p.
Proof.
  set (n := Z.max 0 (d - EPOCH_DAY)).
  set (len := Z.of_nat (length puzzles)).
  assert (Hlen : 0 < len).
  { unfold len. destruct puzzles; [congruence | cbn [length]; lia]. }
  assert (Hbound : 0 <= n mod len < len) by (apply Z.mod_pos_bound; lia).
  assert (Hidx : getPuzzleIndex (JNum n) len = JNum (n mod len)).
  { unfold getPuzzleIndex, js_mod. destruct (Z.eqb_spec len 0); [lia |].
    rewrite Z.rem_mod_nonneg by (unfold n; lia). reflexivity. }
  destruct (lookup_lt_is_Some_2 puzzles (Z.to_nat (n mod len))) as [p Hp].
  { unfold len in *. lia. }
  exists (n mod len), p.
  eexists. split; [apply (getPuzzleForToday_parsed puzzles s d Hs) |].
  cbn [pt_puzzleIndex pt_puzzle]. fold n len. rewrite Hidx.
  split; [reflexivity |]. split; [exact Hbound |]. split; [exact Hp |].
  unfold js_index. destruct (Z.leb_spec 0 (n mod len)); [exact Hp | lia].
Qed.

Lemma getPuzzleForToday_in_catalog_witness :
  [sample_puzzle] <> [] /\ parse_iso_date "2026-02-01" = Some (EPOCH_DAY + 17) /\
  exists (i : Z) (p : Puzzle) (r : PuzzleForToday),
    getPuzzleForToday [sample_puzzle] "2026-02-01" = Normal r /\
    pt_puzzleIndex r = JNum i /\ 0 <= i < Z.of_nat (length [sample_puzzle]) /\
    [sample_puzzle] !! Z.to_nat i = Some p /\ pt_puzzle r = Some p.
Proof.
  assert (Hne : [sample_puzzle] <> []) by discriminate.
  assert (Hs : parse_iso_date "2026-02-01" = Some (EPOCH_DAY + 17)) by (vm_compute; reflexivity).
  split; [exact Hne | split; [exact Hs |]].
  exact (getPuzzleForToday_in_catalog [sample_puzzle] "2026-02-01" (EPOCH_DAY + 17) Hne Hs).
Defined.

(** X3. From [EPOCH_DATE] on, the catalog cycles: two dates that are
    [length puzzles] days apart get the same puzzle and the same index. *)
Theorem getPuzzleForToday_cycles (puzzles : list Puzzle) (s1 s2 : string) (d : Z)
    (Hd : EPOCH_DAY <= d) (Hs1 : parse_iso_date s1 = Some d)
    (Hs2 : parse_iso_date s2 = Some (d + Z.of_nat (length puzzles))) :
  match getPuzzleForToday puzzles s1, getPuzzleForToday puzzles s2 with
  | Normal r1, Normal r2 => pt_puzzle r1 = pt_puzzle r2 /\ pt_puzzleIndex r1 = pt_puzzleIndex r2
  | _, _ => False
  end.
Proof.
  rewrite (getPuzzleForToday_parsed puzzles s1 d Hs1),
          (getPuzzleForToday_parsed puzzles s2 _ Hs2).
  cbn [pt_puzzle pt_puzzleIndex].
  set (len := Z.of_nat (length puzzles)).
  assert (Heq : getPuzzleIndex (JNum (Z.max 0 (d + len - EPOCH_DAY))) len =
                getPuzzleIndex (JNum (Z.max 0 (d - EPOCH_DAY))) len).
  { unfold getPuzzleIndex, js_mod. destruct (Z.eqb_spec len 0); [reflexivity |].
    rewrite !Z.rem_mod_nonneg by lia.
    replace (Z.max 0 (d + len - EPOCH_DAY)) with ((d - EPOCH_DAY) + 1 * len) by lia.
    replace (Z.max 0 (d - EPOCH_DAY)) with (d - EPOCH_DAY) by lia.
    rewrite Z.mod_add by lia. reflexivity. }
  rewrite Heq. split; reflexivity.
Qed.

Definition two_puzzles : list Puzzle := [sample_puzzle; puzzle_without_participants].

Lemma getPuzzleForToday_cycles_witness :
  EPOCH_DAY <= EPOCH_DAY + 3 /\
  parse_iso_date "2026-01-18" = Some (EPOCH_DAY + 3) /\
  parse_iso_date "2026-01-20" = Some (EPOCH_DAY + 3 + Z.of_nat (length two_puzzles)) /\
  match getPuzzleForToday two_puzzles "2026-01-18", getPuzzleForToday two_puzzles "2026-01-20" with
  | Normal r1, Normal r2 => pt_puzzle r1 = pt_puzzle r2 /\ pt_puzzleIndex r1 = pt_puzzleIndex r2
  | _, _ => False
  end.
Proof.
  assert (Hd : EPOCH_DAY <= EPOCH_DAY + 3) by lia.
  assert (H1 : parse_iso_date "2026-01-18" = Some (EPOCH_DAY + 3)) by (vm_compute; reflexivity).
  assert (H2 : parse_iso_date "2026-01-20" = Some (EPOCH_DAY + 3 + Z.of_nat (length two_puzzles)))
    by (vm_compute; reflexivity).
  split; [exact Hd | split; [exact H1 | split; [exact H2 |]]].
  exact (getPuzzleForToday_cycles two_puzzles "2026-01-18" "2026-01-20" (EPOCH_DAY + 3) Hd H1 H2).
Defined.

(** ** Starting the day's game *)

Lemma canPlayToday_cases (today : string) (st : Store) :
  today <> "" ->
  (lastPlayedDate (loadGameState st) = Some today ->
     existingState (canPlayToday today st) = Some (loadGameState st) /\
     canPlay (canPlayToday today st) = negb (alreadyCompleted (loadGameState st)) /\
     reason (canPlayToday today st) =
       (if alreadyCompleted (loadGameState st) then AlreadyCompletedToday else ContinueGame)) /\
  (lastPlayedDate (loadGameState st) <> Some today ->
     existingState (canPlayToday today st) = None /\ canPlay (canPlayToday today st) = true).
Proof.
  intros Hne. unfold canPlayToday.
  destruct (lastPlayedDate (loadGameState st)) as [x |] eqn:Hl; cbn [truthy negb].
  - destruct (String.eqb_spec x "") as [-> | Hx]; cbn [negb].
    + split; [intros [= <-]; congruence | intros _; split; reflexivity].
    + unfold opt_string_eqb. destruct (String.eqb_spec x today) as [-> | Hxt]; cbn [negb].
      * split; [intros _ | intros Hc; congruence].
        destruct (alreadyCompleted (loadGameState st)); repeat split.
      * split; [intros [= ->]; congruence | intros _; split; reflexivity].
  - split; [discriminate | intros _; split; reflexivity].
Qed.

(** X4. [canPlayToday] refuses play exactly when the stored game is
    today's and is won or lost; it hands back the stored state exactly when
    that state is today's. *)
Theorem canPlayToday_refuses_only_completed_today (today : string) (st : Store)
    (Hne : today <> "") :
  (canPlay (canPlayToday today st) = false <->
     lastPlayedDate (loadGameState st) = Some today /\
     alreadyCompleted (loadGameState st) = true) /\
  (existingState (canPlayToday today st) = Some (loadGameState st) <->
     lastPlayedDate (loadGameState st) = Some today).
Proof.
  destruct (canPlayToday_cases today st Hne) as [Hsame Hdiff].
  destruct (decide (lastPlayedDate (loadGameState st) = Some today)) as [Hl | Hl].
  - destruct (Hsame Hl) as (He & Hc & _). rewrite He, Hc.
    destruct (alreadyCompleted (loadGameState st)); cbn; intuition congruence.
  - destruct (Hdiff Hl) as [He Hc]. rewrite He, Hc. intuition congruence.
Qed.

Lemma canPlayToday_refuses_only_completed_today_witness :
  "2026-10-17" <> "" /\
  (canPlay (canPlayToday "2026-10-17" store_won) = false <->
     lastPlayedDate (loadGameState store_won) = Some "2026-10-17" /\
     alreadyCompleted (loadGameState store_won) = true) /\
  (existingState (canPlayToday "2026-10-17" store_won) = Some (loadGameState store_won) <->
     lastPlayedDate (loadGameState store_won) = Some "2026-10-17").
Proof.
  assert (Hne : "2026-10-17" <> "") by discriminate.
  split; [exact Hne |].
  exact (canPlayToday_refuses_only_completed_today "2026-10-17" store_won Hne).
Defined.

(** X5. [initializeTodayGame] keeps the stored state (and the store) only
    for an unfinished game of today; in every other case, a game of today
    already won or lost included, it saves and returns a fresh in-progress
    game of today with no guesses, leaving the statistics alone. *)
Theorem initializeTodayGame_cases (today : string) (st : Store) (Hne : today <> "") :
  let '(g, st') := initializeTodayGame today st in
  (lastPlayedDate (loadGameState st) = Some today ->
   alreadyCompleted (loadGameState st) = false ->
   g = loadGameState st /\ st' = st) /\
  ((lastPlayedDate (loadGameState st) = Some today -> alreadyCompleted (loadGameState st) = true) ->
   lastPlayedDate g = Some today /\ lastPuzzleNumber g = Some (getPuzzleNumber today) /\
   guesses g = [] /\ gameStatus g = InProgress /\
   loadGameState st' = g /\ stored_stats st' = stored_stats st).
Proof.
  destruct (canPlayToday_cases today st Hne) as [Hsame Hdiff].
  unfold initializeTodayGame.
  destruct (decide (lastPlayedDate (loadGameState st) = Some today)) as [Hl | Hl].
  - destruct (Hsame Hl) as (He & _ & Hr). rewrite He, Hr.
    destruct (alreadyCompleted (loadGameState st)) eqn:Hc.
    + split; [discriminate |]. intros _. repeat split.
    + split; [intros _ _; split; reflexivity |]. intros H. specialize (H Hl). discriminate.
  - destruct (Hdiff Hl) as [He _].
    destruct (reason (canPlayToday today st)); rewrite ?He;
      (split; [intros H; congruence | intros _; repeat split]).
Qed.

Lemma initializeTodayGame_cases_witness :
  "2026-10-17" <> "" /\
  (let '(g, st') := initializeTodayGame "2026-10-17" store_won in
  (lastPlayedDate (loadGameState store_won) = Some "2026-10-17" ->
   alreadyCompleted (loadGameState store_won) = false ->
   g = loadGameState store_won /\ st' = store_won) /\
  ((lastPlayedDate (loadGameState store_won) = Some "2026-10-17" ->
    alreadyCompleted (loadGameState store_won) = true) ->
   lastPlayedDate g = Some "2026-10-17" /\
   lastPuzzleNumber g = Some (getPuzzleNumber "2026-10-17") /\
   guesses g = [] /\ gameStatus g = InProgress /\
   loadGameState st' = g /\ stored_stats st' = stored_stats store_won)).
Proof.
  assert (Hne : "2026-10-17" <> "") by discriminate.
  split; [exact Hne |].
  exact (initializeTodayGame_cases "2026-10-17" store_won Hne).
Defined.

(** X6. The initial game state of [useDailyPuzzle] is the stored state
    whenever that state is today's, finished or not (the store is left
    as it is); otherwise it is a fresh in-progress game of today, saved. *)
Theorem useDailyPuzzle_initial_state (today : string) (st : Store) (Hne : today <> "") :
  let '(g, st') := useDailyPuzzle_initialGameState today st in
  (lastPlayedDate (loadGameState st) = Some today -> g = loadGameState st /\ st' = st) /\
  (lastPlayedDate (loadGameState st) <> Some today ->
   lastPlayedDate g = Some today /\ guesses g = [] /\ gameStatus g = InProgress /\
   loadGameState st' = g /\ stored_stats st' = stored_stats st).
Proof.
  destruct (canPlayToday_cases today st Hne) as [Hsame Hdiff].
  pose proof (initializeTodayGame_cases today st Hne) as Hinit.
  unfold useDailyPuzzle_initialGameState.
  destruct (decide (lastPlayedDate (loadGameState st) = Some today)) as [Hl | Hl].
  - destruct (Hsame Hl) as (He & _). rewrite He.
    split; [intros _; split; reflexivity | intros H; contradiction].
  - destruct (Hdiff Hl) as [He _]. rewrite He.
    destruct (initializeTodayGame today st) as [g st'].
    destruct Hinit as [_ Hfresh].
    destruct Hfresh as (H1 & _ & H3 & H4 & H5 & H6); [intros H; contradiction |].
    split; [intros H; contradiction | intros _; repeat split; assumption].
Qed.

Lemma useDailyPuzzle_initial_state_witness :
  "2026-10-17" <> "" /\
  (let '(g, st') := useDailyPuzzle_initialGameState "2026-10-17" store_won in
  (lastPlayedDate (loadGameState store_won) = Some "2026-10-17" ->
   g = loadGameState store_won /\ st' = store_won) /\
  (lastPlayedDate (loadGameState store_won) <> Some "2026-10-17" ->
   lastPlayedDate g = Some "2026-10-17" /\ guesses g = [] /\ gameStatus g = InProgress /\
   loadGameState st' = g /\ stored_stats st' = stored_stats store_won)).
Proof.
  assert (Hne : "2026-10-17" <> "") by discriminate.
  split; [exact Hne |].
  exact (useDailyPuzzle_initial_state "2026-10-17" store_won Hne).
Defined.

(** ** Statistics *)

Lemma dist_total_perm (l1 l2 : list (Z * Z)) :
  Permutation l1 l2 ->
  fold_right (fun kv acc => snd kv + acc) 0 l1 = fold_right (fun kv acc => snd kv + acc) 0 l2.
Proof. induction 1; cbn [fold_right]; lia. Qed.

Lemma dist_total_insert_new (m : gmap Z Z) (i x : Z) :
  m !! i = None -> dist_total (<[i := x]> m) = x + dist_total m.
Proof.
  intros H. unfold dist_total.
  rewrite (dist_total_perm _ _ (map_to_list_insert m i x H)). reflexivity.
Qed.

Lemma dist_total_bump (m : gmap Z Z) (i : Z) :
  dist_total (<[i := default 0 (m !! i) + 1]> m) = dist_total m + 1.
Proof.
  destruct (m !! i) as [v |] eqn:Hi; cbn [default].
  - assert (Hm : dist_total m = dist_total (<[i := v]> (delete i m)))
      by (rewrite (insert_delete_id m i v Hi); reflexivity).
    rewrite Hm, <- (insert_delete_eq m i (v + 1)).
    rewrite !dist_total_insert_new by apply lookup_delete_eq. lia.
  - rewrite dist_total_insert_new by exact Hi. lia.
Qed.

(** Invariants of the stored statistics. *)
Definition stats_ok (s : Stats) : Prop :=
  0 <= gamesWon s <= gamesPlayed s /\ 0 <= currentStreak s <= maxStreak s /\
  dist_total (guessDistribution s) = gamesWon s.

Lemma default_stats_ok : stats_ok getDefaultStats.
Proof. unfold stats_ok. vm_compute. repeat split; discriminate. Qed.

Lemma update_stats_ok (tz : timezone) (today : string) (won : bool) (guessCount : Z) (s s' : Stats) :
  stats_ok s -> update_stats tz today won guessCount s = Normal s' -> stats_ok s'.
Proof.
  unfold stats_ok, update_stats. intros (H1 & H2 & H3) Hu.
  destruct won.
  - destruct (yesterdayStr tz today) as [y | e]; [| discriminate].
    injection Hu as <-. cbn [gamesPlayed gamesWon currentStreak maxStreak guessDistribution].
    rewrite dist_total_bump.
    destruct (opt_string_eqb (lastWinDate s) y); [| destruct (negb _)];
      repeat split; lia.
  - injection Hu as <-. cbn [gamesPlayed gamesWon currentStreak maxStreak guessDistribution].
    repeat split; lia.
Qed.

(** X7. [updateStatsOnComplete] keeps the statistics consistent: games won
    never exceed games played, the current streak is never negative nor
    above the best streak, and the guess distribution counts exactly the
    games won. The statistics of an empty store satisfy this, and every
    completed update of statistics satisfying it saves statistics that do.
    A win is counted at index [guessCount - 1], which is an array index (and
    survives [JSON.stringify]) when [guessCount >= 1], as for [completeGame],
    whose winning guess is among the guesses it counts. *)
Theorem updateStatsOnComplete_keeps_stats_ok (tz : timezone) (today : string) (won : bool)
    (guessCount : Z) (st st' : Store) (s : Stats)
    (Hg : won = true -> 1 <= guessCount)
    (Hok : stored_stats st = None \/ stats_ok (loadStats st))
    (Hu : updateStatsOnComplete tz today won guessCount st = Normal (s, st')) :
  stats_ok s /\ loadStats st' = s /\ gamesPlayed s = gamesPlayed (loadStats st) + 1.
Proof.
  assert (Hok' : stats_ok (loadStats st)).
  { destruct Hok as [Hn | Hs]; [unfold loadStats; rewrite Hn; exact default_stats_ok | exact Hs]. }
  unfold updateStatsOnComplete in Hu.
  destruct (update_stats tz today won guessCount (loadStats st)) as [s1 | e] eqn:Hs; [| discriminate].
  injection Hu as <- <-.
  split; [exact (update_stats_ok _ _ _ _ _ _ Hok' Hs) | split; [reflexivity |]].
  revert Hs. unfold update_stats.
  destruct won; [destruct (yesterdayStr tz today); [| discriminate] |];
    intros [= <-]; reflexivity.
Qed.

Definition store_empty : Store := {| stored_state := None; stored_stats := None |}.

Lemma updateStatsOnComplete_keeps_stats_ok_witness :
  let r := updateStatsOnComplete utc_zone "2026-10-17" true 3 store_empty in
  (true = true -> 1 <= 3) /\
  (stored_stats store_empty = None \/ stats_ok (loadStats store_empty)) /\
  exists s st', r = Normal (s, st') /\
    stats_ok s /\ loadStats st' = s /\ gamesPlayed s = gamesPlayed (loadStats store_empty) + 1.
Proof.
  cbv zeta.
  assert (Hok : stored_stats store_empty = None \/ stats_ok (loadStats store_empty))
    by (left; reflexivity).
  assert (Hg : true = true -> 1 <= 3) by (intros _; lia).
  split; [exact Hg | split; [exact Hok |]].
  destruct (updateStatsOnComplete utc_zone "2026-10-17" true 3 store_empty) as [[s st'] | e] eqn:Hu.
  - exists s, st'. split; [reflexivity |].
    exact (updateStatsOnComplete_keeps_stats_ok utc_zone "2026-10-17" true 3 store_empty st' s Hg Hok Hu).
  - vm_compute in Hu. discriminate.
Defined.

(** X8. [completeGame] does not look at the stored status: every completed
    call marks the stored game won or lost, keeps its guesses, and counts one
    more game played, so a second call on a finished game counts it again. *)
Theorem completeGame_counts_every_call (tz : timezone) (today : string) (won : bool)
    (st st' : Store) (g : GameState)
    (Hc : completeGame tz today won st = Normal (g, st')) :
  gameStatus g = (if won then Won else Lost) /\ guesses g = guesses (loadGameState st) /\
  loadGameState st' = g /\ gamesPlayed (loadStats st') = gamesPlayed (loadStats st) + 1.
Proof.
  unfold completeGame, updateStatsOnComplete in Hc.
  set (g0 := with_guesses_status (loadGameState st) (guesses (loadGameState st))
                                 (if won then Won else Lost)) in Hc.
  assert (Hl : loadStats (saveGameState g0 st) = loadStats st) by reflexivity.
  rewrite Hl in Hc.
  destruct (update_stats tz today won _ (loadStats st)) as [s | e] eqn:Hs; [| discriminate].
  injection Hc as <- <-.
  split; [reflexivity | split; [reflexivity | split; [reflexivity |]]].
  cbn [loadStats saveStats stored_stats].
  revert Hs. unfold update_stats.
  destruct won; [destruct (yesterdayStr tz today); [| discriminate] |];
    intros [= <-]; reflexivity.
Qed.

Lemma completeGame_counts_every_call_witness :
  exists st' g, completeGame utc_zone "2026-10-17" true store_won = Normal (g, st') /\
    gameStatus g = Won /\ guesses g = guesses (loadGameState store_won) /\
    loadGameState st' = g /\ gamesPlayed (loadStats st') = gamesPlayed (loadStats store_won) + 1.
Proof.
  destruct (completeGame utc_zone "2026-10-17" true store_won) as [[g st'] | e] eqn:Hc.
  - exists st', g. split; [reflexivity |].
    exact (completeGame_counts_every_call utc_zone "2026-10-17" true store_won st' g Hc).
  - vm_compute in Hc. discriminate.
Defined.

(** ** Countdown to the next puzzle *)

Lemma padStart2_small (n : Z) :
  0 <= n < 100 -> padStart2 (js_int_to_string n) = pad2 n.
Proof.
  intros Hn. unfold js_int_to_string. destruct (Z.ltb_spec n 0); [lia |].
  destruct (Z.ltb_spec n 10) as [Hlt | Hge].
  - cbn [dec_digits]. destruct (Z.ltb_spec n 10); [| lia].
    unfold pad2. rewrite Z.div_small, Z.mod_small by lia. reflexivity.
  - assert (Hlog : 3 <= Z.log2 n).
    { change 3 with (Z.log2 8). apply Z.log2_le_mono. lia. }
    destruct (Z.to_nat (Z.log2 n)) as [| f] eqn:Hf; [lia |].
    cbn [dec_digits]. destruct (Z.ltb_spec n 10); [lia |].
    destruct f as [| f']; [lia |]. cbn [dec_digits].
    destruct (Z.ltb_spec (n / 10) 10) as [_ | Hc];
      [| assert (n / 10 < 10) by (apply Z.div_lt_upper_bound; lia); lia].
    reflexivity.
Qed.

Lemma formatCountdown_digits (ms : Z) :
  0 <= ms < 100 * msPerHour ->
  exists h m s : Z,
    formatCountdown ms =
      String.append (pad2 h) (String ":" (String.append (pad2 m) (String ":" (pad2 s)))) /\
    0 <= h < 100 /\ 0 <= m < 60 /\ 0 <= s < 60 /\ h * 3600 + m * 60 + s = ms / 1000.
Proof.
  intros Hms. unfold msPerHour in Hms. unfold formatCountdown.
  set (T := ms / 1000).
  assert (HT : 0 <= T < 360000).
  { unfold T. split; [apply Z.div_pos; lia | apply Z.div_lt_upper_bound; lia]. }
  rewrite !Z.rem_mod_nonneg by lia.
  set (a := T / 3600). set (r := T mod 3600). set (b := r / 60). set (c := r mod 60).
  assert (HTa : T = 3600 * a + r) by (apply Z.div_mod; lia).
  assert (Hr : 0 <= r < 3600) by (apply Z.mod_pos_bound; lia).
  assert (Hrb : r = 60 * b + c) by (apply Z.div_mod; lia).
  assert (Hc : 0 <= c < 60) by (apply Z.mod_pos_bound; lia).
  assert (Hb : 0 <= b < 60).
  { unfold b. split; [apply Z.div_pos; lia | apply Z.div_lt_upper_bound; lia]. }
  assert (Ha : 0 <= a < 100).
  { unfold a. split; [apply Z.div_pos; lia | apply Z.div_lt_upper_bound; lia]. }
  assert (HT60 : T mod 60 = c).
  { symmetry. apply (Z.mod_unique T 60 (60 * a + b) c); [left; lia | lia]. }
  rewrite HT60.
  exists a, b, c.
  rewrite !padStart2_small by lia.
  split; [reflexivity |]. lia.
Qed.

(** X9. [getMillisecondsUntilNextPuzzle] is the time to the next UTC
    midnight: strictly positive, at most one day, and it lands on a UTC
    midnight, whatever the instant and the browser's time zone. *)
Theorem getMillisecondsUntilNextPuzzle_next_midnight (now : Z) :
  0 < getMillisecondsUntilNextPuzzle now <= msPerDay /\
  (now + getMillisecondsUntilNextPuzzle now) mod msPerDay = 0 /\
  getMillisecondsUntilNextPuzzle now = msPerDay - now mod msPerDay.
Proof.
  unfold getMillisecondsUntilNextPuzzle, setUTCHours0, setUTCDate_add.
  assert (HD : 0 < msPerDay) by (unfold msPerDay; lia).
  replace (now + 1 * msPerDay) with (now + 1 * msPerDay) by reflexivity.
  rewrite Z.div_add by lia.
  assert (Hn : now = msPerDay * (now / msPerDay) + now mod msPerDay) by (apply Z.div_mod; lia).
  assert (Hb : 0 <= now mod msPerDay < msPerDay) by (apply Z.mod_pos_bound; lia).
  split; [lia | split; [| lia]].
  replace (now + ((now / msPerDay + 1) * msPerDay - now)) with ((now / msPerDay + 1) * msPerDay)
    by lia.
  apply Z.mod_mul. lia.
Qed.

(** X10. The countdown shown by [CountdownTimer] and [LeaderboardModal],
    [formatCountdown(getMillisecondsUntilNextPuzzle())], is always two-digit
    [HH:MM:SS] of the seconds left; the hours are below 24 except exactly at
    a UTC midnight, where it reads [24:00:00]. *)
Theorem countdown_display (now : Z) :
  exists h m s : Z,
    formatCountdown (getMillisecondsUntilNextPuzzle now) =
      String.append (pad2 h) (String ":" (String.append (pad2 m) (String ":" (pad2 s)))) /\
    0 <= m < 60 /\ 0 <= s < 60 /\
    h * 3600 + m * 60 + s = getMillisecondsUntilNextPuzzle now / 1000 /\
    (now mod msPerDay = 0 -> h = 24 /\ m = 0 /\ s = 0) /\
    (now mod msPerDay <> 0 -> 0 <= h < 24).
Proof.
  destruct (getMillisecondsUntilNextPuzzle_next_midnight now) as (Hr & _ & Heq).
  destruct (formatCountdown_digits (getMillisecondsUntilNextPuzzle now)) as (h & m & s & Hf & Hh & Hm & Hs & Hsum).
  { unfold msPerHour. unfold msPerDay in Hr. lia. }
  exists h, m, s. split; [exact Hf |]. split; [exact Hm |]. split; [exact Hs |].
  split; [exact Hsum |]. rewrite Heq in Hsum.
  assert (Hb : 0 <= now mod msPerDay < msPerDay) by (apply Z.mod_pos_bound; unfold msPerDay; lia).
  split.
  - intros H0. rewrite H0, Z.sub_0_r in Hsum. change (msPerDay / 1000) with 86400 in Hsum. lia.
  - intros H0. assert (Hlt : (msPerDay - now mod msPerDay) / 1000 < 86400).
    { apply Z.div_lt_upper_bound; unfold msPerDay in *; lia. }
    lia.
Qed.

(** ** Leaderboard submission *)

(** X11. After a successful submission the hook never submits again: every
    later call of [submitToLeaderboard] on the same hook, whatever its
    arguments and the database's answers, is refused without writing to
    the leaderboard table. *)
Theorem submitToLeaderboard_once (supabase : bool) (ans : SupabaseAnswers)
    (args : LeaderboardArgs) (flags flags' : SubmitFlags)
    (db db' : list LbInsertRow) (guessesUsed : Z) (won : bool)
    (Hs : submitToLeaderboard supabase ans args flags db guessesUsed won = (SubmitSuccess, flags', db')) :
  forall (supabase2 : bool) (ans2 : SupabaseAnswers) (args2 : LeaderboardArgs)
         (db2 : list LbInsertRow) (guessesUsed2 : Z) (won2 : bool),
    submitToLeaderboard supabase2 ans2 args2 flags' db2 guessesUsed2 won2 =
      (SubmitInvalidState, flags', db2).
Proof.
  assert (Hh : hasSubmitted flags' = true).
  { revert Hs. unfold submitToLeaderboard.
    destruct (la_discordUserId args), (la_puzzleDate args); try discriminate.
    destruct (_ || _ || _ || _); [discriminate |].
    destruct (submitLeaderboardEntry supabase ans _ db) as [[] db1]; intros [= <-]; reflexivity. }
  intros sb2 ans2 args2 db2 g2 w2. unfold submitToLeaderboard.
  destruct (la_discordUserId args2), (la_puzzleDate args2); try reflexivity.
  rewrite Hh, orb_true_r. reflexivity.
Qed.

Definition lb_args_alice : LeaderboardArgs :=
  {| la_discordUserId := Some "alice"; la_discordUsername := Some "Alice"; la_guildId := None;
     la_puzzleDate := Some "2026-01-17"; la_puzzleNumber := JNum 2 |}.

Definition answers_ok : SupabaseAnswers := {| select_failed := false; insert_error := None |}.

Lemma submitToLeaderboard_once_witness :
  submitToLeaderboard true answers_ok lb_args_alice {| isSubmitting := false; hasSubmitted := false |}
    [] 3 true =
    (SubmitSuccess, {| isSubmitting := false; hasSubmitted := true |},
     snd (submitToLeaderboard true answers_ok lb_args_alice
            {| isSubmitting := false; hasSubmitted := false |} [] 3 true)) /\
  submitToLeaderboard true answers_ok lb_args_alice {| isSubmitting := false; hasSubmitted := true |}
    [] 2 true =
    (SubmitInvalidState, {| isSubmitting := false; hasSubmitted := true |}, []).
Proof.
  assert (Hs : submitToLeaderboard true answers_ok lb_args_alice
                 {| isSubmitting := false; hasSubmitted := false |} [] 3 true =
    (SubmitSuccess, {| isSubmitting := false; hasSubmitted := true |},
     snd (submitToLeaderboard true answers_ok lb_args_alice
            {| isSubmitting := false; hasSubmitted := false |} [] 3 true)))
    by reflexivity.
  split; [exact Hs |].
  exact (submitToLeaderboard_once _ _ _ _ _ _ _ _ _ Hs true answers_ok lb_args_alice [] 2 true).
Defined.

(** ** Archive mode *)

(** X13. A guess of a known player in a live archive game appends its
    feedback and marks the player used; a hit wins the game and records
    "won" for the puzzle date, a miss that fills the fifth slot ends it and
    records "lost", any other miss records nothing. Other dates are never
    touched. *)
Theorem handleArchiveGuess_known_player (players : list Player) (puzzle : option Puzzle)
    (date : string) (g : ArchiveGame) (completed : option (gmap string string))
    (playerKey : string) (fb : Feedback)
    (Hwon : archiveGameWon g = false) (Hover : archiveGameOver g = false)
    (Hused : playerKey ∉ archiveUsedPlayers g)
    (Hfb : generateNewFeedback players playerKey puzzle = Some fb) :
  let '(g', completed') := handleArchiveGuess players puzzle date g completed playerKey in
  let last := Nat.leb MAX_GUESSES (length (archiveFeedbackList g ++ [fb])) in
  archiveFeedbackList g' = archiveFeedbackList g ++ [fb] /\
  archiveUsedPlayers g' = {[playerKey]} ∪ archiveUsedPlayers g /\
  archiveGameWon g' = isMVP fb /\
  archiveGameOver g' = negb (isMVP fb) && last /\
  loadArchiveCompleted completed' !! date =
    (if isMVP fb then Some "won" else if last then Some "lost"
     else loadArchiveCompleted completed !! date) /\
  (forall d, d <> date -> loadArchiveCompleted completed' !! d = loadArchiveCompleted completed !! d).
Proof.
  unfold handleArchiveGuess.
  rewrite Hwon, Hover, (bool_decide_eq_false_2 _ Hused), Hfb. cbn [orb].
  destruct (isMVP fb); cbn [negb andb].
  - repeat split; [apply lookup_insert_eq |].
    intros d Hd. unfold saveArchiveCompletion. cbn [loadArchiveCompleted].
    apply lookup_insert_ne. congruence.
  - destruct (Nat.leb MAX_GUESSES _); (repeat split);
      try (unfold saveArchiveCompletion; cbn [loadArchiveCompleted]; apply lookup_insert_eq);
      try (intros d Hd; unfold saveArchiveCompletion; cbn [loadArchiveCompleted];
           apply lookup_insert_ne; congruence);
      intros; reflexivity.
Qed.

Definition archive_four_misses (fb : Feedback) : ArchiveGame :=
  {| archiveFeedbackList := [fb; fb; fb; fb];
     archiveUsedPlayers := {["gill"; "pant"; "hardik"; "bumrah"]};
     archiveGameWon := false; archiveGameOver := false |}.

Definition feedback_rohit : Feedback :=
  {| playerName := "Rohit Sharma"; fb_country := "India"; fb_role := "Batter";
     playedInGame := true; sameTeam := true; sameRole := true; isMVP := false |}.

Lemma handleArchiveGuess_known_player_witness :
  archiveGameWon (archive_four_misses feedback_rohit) = false /\
  archiveGameOver (archive_four_misses feedback_rohit) = false /\
  ("rohit" ∉ archiveUsedPlayers (archive_four_misses feedback_rohit)) /\
  generateNewFeedback [rohit; kohli] "rohit" (Some sample_puzzle) = Some feedback_rohit /\
  (let '(g', completed') := handleArchiveGuess [rohit; kohli] (Some sample_puzzle) "2026-01-16"
                             (archive_four_misses feedback_rohit) None "rohit" in
  let last := Nat.leb MAX_GUESSES
                (length (archiveFeedbackList (archive_four_misses feedback_rohit) ++ [feedback_rohit])) in
  archiveFeedbackList g' = archiveFeedbackList (archive_four_misses feedback_rohit) ++ [feedback_rohit] /\
  archiveUsedPlayers g' = {["rohit"]} ∪ archiveUsedPlayers (archive_four_misses feedback_rohit) /\
  archiveGameWon g' = isMVP feedback_rohit /\
  archiveGameOver g' = negb (isMVP feedback_rohit) && last /\
  loadArchiveCompleted completed' !! "2026-01-16" =
    (if isMVP feedback_rohit then Some "won" else if last then Some "lost"
     else loadArchiveCompleted None !! "2026-01-16") /\
  (forall d, d <> "2026-01-16" ->
     loadArchiveCompleted completed' !! d = loadArchiveCompleted None !! d)).
Proof.
  assert (H1 : archiveGameWon (archive_four_misses feedback_rohit) = false) by reflexivity.
  assert (H2 : archiveGameOver (archive_four_misses feedback_rohit) = false) by reflexivity.
  assert (H3 : "rohit" ∉ archiveUsedPlayers (archive_four_misses feedback_rohit))
    by (unfold archive_four_misses; cbn [archiveUsedPlayers]; set_solver).
  assert (H4 : generateNewFeedback [rohit; kohli] "rohit" (Some sample_puzzle) = Some feedback_rohit)
    by reflexivity.
  split; [exact H1 | split; [exact H2 | split; [exact H3 | split; [exact H4 |]]]].
  exact (handleArchiveGuess_known_player _ _ _ _ None _ _ H1 H2 H3 H4).
Defined.

(** X14. Archive guesses that cost no attempt: once the archive game is won
    or over, or for a player already guessed, a guess changes nothing; in a
    live game, a guess of a player missing from the catalog adds no feedback
    and records nothing, but marks the name used, so repeating it changes
    nothing. *)
Theorem handleArchiveGuess_no_attempt (players : list Player) (puzzle : option Puzzle)
    (date : string) (g : ArchiveGame) (completed : option (gmap string string))
    (playerKey : string) :
  (archiveGameWon g = true \/ archiveGameOver g = true \/ playerKey ∈ archiveUsedPlayers g ->
   handleArchiveGuess players puzzle date g completed playerKey = (g, completed)) /\
  (archiveGameWon g = false -> archiveGameOver g = false ->
   generateNewFeedback players playerKey puzzle = None ->
   let '(g', completed') := handleArchiveGuess players puzzle date g completed playerKey in
   archiveFeedbackList g' = archiveFeedbackList g /\ archiveGameWon g' = false /\
   archiveGameOver g' = false /\ completed' = completed /\
   playerKey ∈ archiveUsedPlayers g' /\
   handleArchiveGuess players puzzle date g' completed' playerKey = (g', completed')).
Proof.
  split.
  - intros H. unfold handleArchiveGuess.
    destruct H as [H | [H | H]]; rewrite ?H, ?orb_true_r; [reflexivity | reflexivity |].
    rewrite (bool_decide_eq_true_2 _ H), orb_true_r. reflexivity.
  - intros Hwon Hover Hfb. unfold handleArchiveGuess at 1. rewrite Hwon, Hover. cbn [orb].
    destruct (bool_decide (playerKey ∈ archiveUsedPlayers g)) eqn:Hu.
    + apply bool_decide_eq_true_1 in Hu.
      repeat split; [exact Hwon | exact Hover | exact Hu |].
      unfold handleArchiveGuess. rewrite (bool_decide_eq_true_2 _ Hu), orb_true_r. reflexivity.
    + rewrite Hfb. cbn [archiveFeedbackList archiveGameWon archiveGameOver archiveUsedPlayers].
      repeat split; try assumption; try set_solver.
      unfold handleArchiveGuess. cbn [archiveGameWon archiveGameOver archiveUsedPlayers].
      rewrite (bool_decide_eq_true_2 (playerKey ∈ {[playerKey]} ∪ archiveUsedPlayers g)) by set_solver.
      rewrite orb_true_r. reflexivity.
Qed.

Lemma handleArchiveGuess_no_attempt_witness :
  (archiveGameWon (archive_four_misses feedback_rohit) = true \/
   archiveGameOver (archive_four_misses feedback_rohit) = true \/
   "gill" ∈ archiveUsedPlayers (archive_four_misses feedback_rohit) ->
   handleArchiveGuess [rohit; kohli] (Some sample_puzzle) "2026-01-16"
     (archive_four_misses feedback_rohit) None "gill" = (archive_four_misses feedback_rohit, None)) /\
  (archiveGameWon (archive_four_misses feedback_rohit) = false ->
   archiveGameOver (archive_four_misses feedback_rohit) = false ->
   generateNewFeedback [rohit; kohli] "gill" (Some sample_puzzle) = None ->
   let '(g', completed') := handleArchiveGuess [rohit; kohli] (Some sample_puzzle) "2026-01-16"
                              (archive_four_misses feedback_rohit) None "gill" in
   archiveFeedbackList g' = archiveFeedbackList (archive_four_misses feedback_rohit) /\
   archiveGameWon g' = false /\ archiveGameOver g' = false /\ completed' = None /\
   "gill" ∈ archiveUsedPlayers g' /\
   handleArchiveGuess [rohit; kohli] (Some sample_puzzle) "2026-01-16" g' completed' "gill" =
     (g', completed')).
Proof.
  exact (handleArchiveGuess_no_attempt [rohit; kohli] (Some sample_puzzle) "2026-01-16"
           (archive_four_misses feedback_rohit) None "gill").
Defined.

(** ** Daily mode: [handlePlayerGuess] *)

Lemma with_guesses_status_idem (s : GameState) (g : list string) (x : GameStatus) :
  with_guesses_status (with_guesses_status s g x) g x = with_guesses_status s g x.
Proof. destruct s; reflexivity. Qed.

Lemma hook_recordGuess_live (tz : timezone) (today : string) (rs rs' : DailyPuzzleHook)
    (st st' : Store) (playerKey : string) (isCorrect : bool) (out : RecordOutcome) :
  alreadyCompleted (rs_gameState rs) = false ->
  hook_recordGuess tz today rs st playerKey isCorrect = Normal (out, rs', st') ->
  guesses (rs_gameState rs') = guesses (rs_gameState rs) ++ [playerKey] /\
  gameStatus (rs_gameState rs') =
    (if isCorrect then Won
     else if Nat.leb MAX_GUESSES (length (guesses (rs_gameState rs) ++ [playerKey])) then Lost
     else InProgress) /\
  loadGameState st' = rs_gameState rs'.
Proof.
  intros Hc. unfold hook_recordGuess. rewrite Hc.
  set (ng := guesses (rs_gameState rs) ++ [playerKey]).
  destruct isCorrect; cbn [orb andb negb];
    [| destruct (Nat.leb MAX_GUESSES (length ng)) eqn:Hl; cbn [orb andb negb]].
  - unfold completeGame, updateStatsOnComplete.
    destruct (update_stats _ _ _ _ _); [| discriminate].
    intros [= <- <- <-]. cbn [rs_gameState loadGameState saveGameState saveStats stored_state].
    rewrite with_guesses_status_idem.
    split; [reflexivity | split; reflexivity].
  - unfold completeGame, updateStatsOnComplete.
    destruct (update_stats _ _ _ _ _); [| discriminate].
    intros [= <- <- <-]. cbn [rs_gameState loadGameState saveGameState saveStats stored_state].
    rewrite with_guesses_status_idem.
    split; [reflexivity | split; reflexivity].
  - intros [= <- <- <-]. split; [reflexivity | split; reflexivity].
Qed.

(** X15. In a live daily game, a guess of a player that neither the server
    nor the local catalog knows costs no attempt: the feedback, the game and
    the stored state are unchanged, only the name is marked used, so
    repeating it is ignored whatever the server answers. *)
Theorem handlePlayerGuess_unknown_player (tz : timezone) (today : string)
    (players : list Player) (currentPuzzle : option Puzzle) (app : AppState) (st : Store)
    (playerKey : string)
    (Hwon : gameWon app = false) (Hover : gameOver app = false)
    (Hused : playerKey ∉ usedPlayers app)
    (Hdone : alreadyCompleted (rs_gameState (app_hook app)) = false)
    (Hlocal : generateNewFeedback players playerKey currentPuzzle = None) :
  let app' := {| feedbackList := feedbackList app; usedPlayers := {[playerKey]} ∪ usedPlayers app;
                 gameWon := false; gameOver := false; app_hook := app_hook app |} in
  handlePlayerGuess tz today players currentPuzzle RemoteError app st playerKey = Normal (app', st) /\
  forall remote : RemoteResult,
    handlePlayerGuess tz today players currentPuzzle remote app' st playerKey = Normal (app', st).
Proof.
  cbv zeta. split.
  - unfold handlePlayerGuess.
    rewrite Hwon, Hover, (bool_decide_eq_false_2 _ Hused), Hdone. cbn [orb].
    destruct (match currentPuzzle with Some pz => _ | None => false end);
      rewrite Hlocal; reflexivity.
  - intros remote. unfold handlePlayerGuess. cbn [gameWon gameOver usedPlayers].
    rewrite (bool_decide_eq_true_2 (playerKey ∈ {[playerKey]} ∪ usedPlayers app)) by set_solver.
    reflexivity.
Qed.

Definition app_four_misses : AppState :=
  {| feedbackList := [feedback_rohit; feedback_rohit; feedback_rohit; feedback_rohit];
     usedPlayers := {["rohit"; "gill"; "pant"; "hardik"]};
     gameWon := false; gameOver := false; app_hook := hook_four_guesses |}.

Lemma handlePlayerGuess_unknown_player_witness :
  gameWon app_four_misses = false /\ gameOver app_four_misses = false /\
  ("bumrah" ∉ usedPlayers app_four_misses) /\
  alreadyCompleted (rs_gameState (app_hook app_four_misses)) = false /\
  generateNewFeedback [rohit; kohli] "bumrah" (Some sample_puzzle) = None /\
  (let app' := {| feedbackList := feedbackList app_four_misses;
                  usedPlayers := {["bumrah"]} ∪ usedPlayers app_four_misses;
                  gameWon := false; gameOver := false; app_hook := app_hook app_four_misses |} in
   handlePlayerGuess utc_zone "2026-01-17" [rohit; kohli] (Some sample_puzzle) RemoteError
     app_four_misses store_four_guesses "bumrah" = Normal (app', store_four_guesses) /\
   forall remote : RemoteResult,
     handlePlayerGuess utc_zone "2026-01-17" [rohit; kohli] (Some sample_puzzle) remote app'
       store_four_guesses "bumrah" = Normal (app', store_four_guesses)).
Proof.
  assert (H1 : gameWon app_four_misses = false) by reflexivity.
  assert (H2 : gameOver app_four_misses = false) by reflexivity.
  assert (H3 : "bumrah" ∉ usedPlayers app_four_misses)
    by (unfold app_four_misses; cbn [usedPlayers]; set_solver).
  assert (H4 : alreadyCompleted (rs_gameState (app_hook app_four_misses)) = false) by reflexivity.
  assert (H5 : generateNewFeedback [rohit; kohli] "bumrah" (Some sample_puzzle) = None)
    by reflexivity.
  split; [exact H1 | split; [exact H2 | split; [exact H3 | split; [exact H4 | split; [exact H5 |]]]]].
  exact (handlePlayerGuess_unknown_player utc_zone "2026-01-17" [rohit; kohli] (Some sample_puzzle)
           app_four_misses store_four_guesses "bumrah" H1 H2 H3 H4 H5).
Defined.

(** The App's flags and feedback list agree with the hook's game state,
    which is the stored one. *)
Definition app_consistent (app : AppState) (st : Store) : Prop :=
  (gameWon app = true <-> gameStatus (rs_gameState (app_hook app)) = Won) /\
  (gameOver app = true <-> gameStatus (rs_gameState (app_hook app)) = Lost) /\
  length (feedbackList app) = length (guesses (rs_gameState (app_hook app))) /\
  loadGameState st = rs_gameState (app_hook app).

(** X16. [handlePlayerGuess] keeps the App's [gameWon]/[gameOver] flags and
    its feedback list in step with the game state of [useDailyPuzzle] and of
    localStorage: when they agree before a guess (whatever the server
    answers), they agree after it. *)
Theorem handlePlayerGuess_keeps_consistent (tz : timezone) (today : string)
    (players : list Player) (currentPuzzle : option Puzzle) (remote : RemoteResult)
    (app app' : AppState) (st st' : Store) (playerKey : string)
    (Hc : app_consistent app st)
    (Hh : handlePlayerGuess tz today players currentPuzzle remote app st playerKey = Normal (app', st')) :
  app_consistent app' st'.
Proof.
  revert Hh. unfold handlePlayerGuess.
  destruct (gameWon app || gameOver app || bool_decide (playerKey ∈ usedPlayers app)
            || alreadyCompleted (rs_gameState (app_hook app))) eqn:Hg.
  { intros [= <- <-]. exact Hc. }
  apply orb_false_iff in Hg as [Hg Hdone]. apply orb_false_iff in Hg as [Hg _].
  apply orb_false_iff in Hg as [Hwon Hover].
  destruct (if match currentPuzzle with Some pz => _ | None => false end then _ else _)
    as [fb |].
  2: { intros [= <- <-]. unfold app_consistent in *. cbn [gameWon gameOver feedbackList app_hook].
       exact Hc. }
  destruct (hook_recordGuess tz today (app_hook app) st playerKey (isMVP fb))
    as [[[out hook'] st1] | e] eqn:Hr; [| discriminate].
  intros [= <- <-].
  destruct (hook_recordGuess_live _ _ _ _ _ _ _ _ _ Hdone Hr) as (Hgs & Hst & Hload).
  destruct Hc as (_ & _ & Hlen & _).
  unfold app_consistent. cbn [gameWon gameOver feedbackList app_hook].
  rewrite Hwon, Hover, Hst, Hgs, !orb_false_l.
  rewrite !length_app, Hlen. cbn [length].
  split; [| split; [| split; [reflexivity | exact Hload]]];
    generalize (length (guesses (rs_gameState (app_hook app)))); intros n;
    (destruct (isMVP fb); [split; intros; congruence |]);
    (do 5 (destruct n as [| n]; [cbn; split; intros; congruence |]));
    cbn; split; intros; congruence.
Qed.

Lemma handlePlayerGuess_keeps_consistent_witness :
  app_consistent app_four_misses store_four_guesses /\
  exists app' st',
    handlePlayerGuess utc_zone "2026-01-17" [rohit; kohli] (Some sample_puzzle) RemoteError
      app_four_misses store_four_guesses "kohli" = Normal (app', st') /\
    app_consistent app' st'.
Proof.
  assert (Hc : app_consistent app_four_misses store_four_guesses).
  { unfold app_consistent. cbn.
    split; [split; intros; discriminate | split; [split; intros; discriminate | split; reflexivity]]. }
  split; [exact Hc |].
  destruct (handlePlayerGuess utc_zone "2026-01-17" [rohit; kohli] (Some sample_puzzle) RemoteError
              app_four_misses store_four_guesses "kohli") as [[app' st'] | e] eqn:Hh.
  - exists app', st'. split; [reflexivity |].
    exact (handlePlayerGuess_keeps_consistent utc_zone "2026-01-17" [rohit; kohli] (Some sample_puzzle)
             RemoteError app_four_misses app' store_four_guesses st' "kohli" Hc Hh).
  - vm_compute in Hh. discriminate.
Defined.

(** ** The effective date and the countdown *)

(** X17. In a time zone with a fixed offset, [getEffectiveDate] is the UTC
    date of the instant shifted by the debug offset, whatever the offset of
    the zone; and when the countdown of [getMillisecondsUntilNextPuzzle]
    runs out, the effective date is the next UTC day. *)
Theorem getEffectiveDate_utc_day (tz : timezone) (c now debugOffset : Z)
    (Hu : forall x, off_utc tz x = c) (Hl : forall x, off_local tz x = c) :
  getEffectiveDate tz now debugOffset = iso_of_day (now / msPerDay + debugOffset) /\
  getEffectiveDate tz (now + getMillisecondsUntilNextPuzzle now) 0 = iso_of_day (now / msPerDay + 1).
Proof.
  unfold getEffectiveDate, iso_date_of_ms.
  rewrite !(setDate_add_fixed tz c _ _ Hu Hl).
  assert (HD : msPerDay <> 0) by (unfold msPerDay; lia).
  split.
  - rewrite Z.div_add by exact HD. reflexivity.
  - unfold getMillisecondsUntilNextPuzzle, setUTCHours0, setUTCDate_add.
    rewrite (Z.div_add now 1 msPerDay HD).
    replace (now + ((now / msPerDay + 1) * msPerDay - now) + 0 * msPerDay)
      with ((now / msPerDay + 1) * msPerDay) by lia.
    rewrite Z.div_mul by exact HD. reflexivity.
Qed.

Definition india_zone : timezone := {| off_utc := fun _ => 19800000; off_local := fun _ => 19800000 |}.

Lemma getEffectiveDate_utc_day_witness :
  (forall x, off_utc india_zone x = 19800000) /\ (forall x, off_local india_zone x = 19800000) /\
  getEffectiveDate india_zone now_2026_01_17_noon 0 = iso_of_day (now_2026_01_17_noon / msPerDay + 0) /\
  getEffectiveDate india_zone (now_2026_01_17_noon + getMillisecondsUntilNextPuzzle now_2026_01_17_noon) 0 =
    iso_of_day (now_2026_01_17_noon / msPerDay + 1).
Proof.
  assert (Hu : forall x, off_utc india_zone x = 19800000) by reflexivity.
  assert (Hl : forall x, off_local india_zone x = 19800000) by reflexivity.
  split; [exact Hu | split; [exact Hl |]].
  exact (getEffectiveDate_utc_day india_zone 19800000 now_2026_01_17_noon 0 Hu Hl).
Defined.
